(** * gomusicbrainz: a MusicBrainz WS2 client

    Shallow embedding of [gomusicbrainz.go] and the properties of its request
    pipeline: parameter construction, the request line, the decode step and
    the way failures leave a search operation. *)

From Stdlib Require Import ZArith List String Ascii Bool Lia.
Import ListNotations.

Local Open Scope string_scope.
Local Open Scope Z_scope.

(** Go's [error] interface value, identified with its message. *)
Definition error : Type := string.

(** ** Package [strconv] *)

Module strconv.

(** The byte of a decimal digit: [byte(d + '0')]. *)
Definition digit (d : Z) : ascii := ascii_of_N (48 + Z.to_N d).

(** The digit loop of [formatBits] in base 10: the least significant digit
    is written first, in front of what is already there, until the rest is
    below ten. *)
Fixpoint formatBits (fuel : nat) (u : Z) (acc : string) : string :=
  match fuel with
  | O => acc
  | S fuel' =>
      if u <? 10 then String (digit u) acc
      else formatBits fuel' (u / 10) (String (digit (u mod 10)) acc)
  end.

(** [Z.log2 u + 1] binary digits bound the number of decimal ones. *)
Definition fuel_for (u : Z) : nat := S (Z.to_nat (Z.log2 u)).

(** [strconv.Itoa]: a minus sign for a negative number, then the digits of
    its magnitude. *)
Definition Itoa (i : Z) : string :=
  if i <? 0 then String "-" (formatBits (fuel_for (- i)) (- i) "")
  else formatBits (fuel_for i) i "".

Definition isDigit (c : ascii) : bool :=
  let n := Z.of_N (N_of_ascii c) in (48 <=? n) && (n <=? 57).

Definition digitVal (c : ascii) : Z := Z.of_N (N_of_ascii c) - 48.

(** Reading a run of decimal digits, most significant first. *)
Fixpoint parseDigits (s : string) (acc : Z) : option Z :=
  match s with
  | EmptyString => Some acc
  | String c s' =>
      if isDigit c then parseDigits s' (10 * acc + digitVal c) else None
  end.

(** [strconv.Atoi] without its range check: an optional minus sign and at
    least one digit. *)
Definition Atoi (s : string) : option Z :=
  match s with
  | EmptyString => None
  | String "-" EmptyString => None
  | String "-" s' => option_map Z.opp (parseDigits s' 0)
  | _ => parseDigits s 0
  end.

End strconv.

(** ** Package [net/url] *)

Module url.

(** [url.Values]: a map from a key to its values.  The client only builds
    it from a literal with distinct keys and encodes it, so the entries are
    kept in the order of the literal. *)
Definition Values : Type := list (string * list string).

Definition Get (v : Values) (key : string) : string :=
  match find (fun kv => String.eqb (fst kv) key) v with
  | Some (_, x :: _) => x
  | _ => ""
  end.

Definition inRange (lo hi c : ascii) : bool :=
  (N_of_ascii lo <=? N_of_ascii c)%N && (N_of_ascii c <=? N_of_ascii hi)%N.

(** [shouldEscape] in mode [encodeQueryComponent]: letters, digits and the
    unreserved marks stay; every other byte is escaped. *)
Definition shouldEscape (c : ascii) : bool :=
  if inRange "a" "z" c || inRange "A" "Z" c || inRange "0" "9" c then false
  else if Ascii.eqb c "-" || Ascii.eqb c "_" || Ascii.eqb c "." || Ascii.eqb c "~"
  then false
  else true.

(** One character of ["0123456789ABCDEF"]. *)
Definition upperhex (n : N) : ascii :=
  if (n <? 10)%N then ascii_of_N (48 + n) else ascii_of_N (55 + n).

(** [QueryEscape]: a space becomes [+], an escaped byte becomes [%XX]. *)
Fixpoint QueryEscape (s : string) : string :=
  match s with
  | EmptyString => EmptyString
  | String c s' =>
      if Ascii.eqb c " " then String "+" (QueryEscape s')
      else if shouldEscape c then
        String "%" (String (upperhex (N_of_ascii c / 16))
                      (String (upperhex (N_of_ascii c mod 16)) (QueryEscape s')))
      else String c (QueryEscape s')
  end.

(** The strings [QueryEscape] leaves as they are. *)
Fixpoint unreserved (s : string) : bool :=
  match s with
  | EmptyString => true
  | String c s' => negb (Ascii.eqb c " ") && negb (shouldEscape c) && unreserved s'
  end.

(** Sorting the entries by key, as [Encode] sorts the keys of the map. *)
Fixpoint insertKey (kv : string * list string) (l : Values) : Values :=
  match l with
  | [] => [kv]
  | kv' :: l' =>
      if String.leb (fst kv) (fst kv') then kv :: l else kv' :: insertKey kv l'
  end.

Definition sortKeys (v : Values) : Values := fold_right insertKey [] v.

(** The inner loop of [Encode]: one [key=value] per value of a key, an [&]
    in front of each one once the buffer is not empty. *)
Fixpoint encodeKey (keyEscaped : string) (vs : list string) (buf : string) : string :=
  match vs with
  | [] => buf
  | v :: vs' =>
      let buf := if String.eqb buf "" then buf else buf ++ "&" in
      encodeKey keyEscaped vs' (buf ++ keyEscaped ++ "=" ++ QueryEscape v)
  end.

(** [Values.Encode]: the URL-encoded form, sorted by key. *)
Definition Encode (v : Values) : string :=
  fold_left (fun buf kv => encodeKey (QueryEscape (fst kv)) (snd kv) buf)
            (sortKeys v) "".

(** [url.URL], with the components a service root has. *)
Record URL : Type := mkURL {
  Scheme : string;
  Host : string;
  Path : string;
  RawQuery : string;
  Fragment : string
}.

Definition nonEmpty (s : string) : bool := negb (String.eqb s "").

Definition startsWithSlash (s : string) : bool :=
  match s with String "/" _ => true | _ => false end.

(** [URL.String] for components that need no escaping: scheme, authority,
    path, query and fragment, each with its separator. *)
Definition String_ (u : URL) : string :=
  (if nonEmpty (Scheme u) then Scheme u ++ ":" else "")
  ++ (if nonEmpty (Scheme u) || nonEmpty (Host u) then
        (if nonEmpty (Host u) || nonEmpty (Path u) then "//" else "") ++ Host u
      else "")
  ++ (if nonEmpty (Path u) && negb (startsWithSlash (Path u)) && nonEmpty (Host u)
      then "/" else "")
  ++ Path u
  ++ (if nonEmpty (RawQuery u) then "?" ++ RawQuery u else "")
  ++ (if nonEmpty (Fragment u) then "#" ++ Fragment u else "").

End url.

(** ** Package [net/http] and [encoding/xml] as the client sees them *)

(** [http.Header]: canonical key to values. *)
Definition Header : Type := list (string * list string).

Definition Header_Set (h : Header) (key value : string) : Header :=
  (key, [value]) :: filter (fun kv => negb (String.eqb (fst kv) key)) h.

Definition Header_Get (h : Header) (key : string) : string :=
  url.Get h key.

Record Request : Type := mkRequest {
  Method : string;
  RequestURL : string;
  ReqHeader : Header
}.

Record HTTPResponse : Type := mkHTTPResponse {
  Body : string
}.

(** What lies outside the process: the verdict of [url.Parse] on the request
    line inside [http.NewRequest], and what [client.Do] gets back from the
    network for a request. *)
Record Env : Type := mkEnv {
  url_Parse_err : string -> option error;
  client_Do : Request -> error + HTTPResponse
}.

(** [decoder.Decode(data)] fills the value [data] points to from the body and
    reports an error; what it has filled in before an error stays there. *)
Class Unmarshal (T : Type) : Type :=
  xml_Decode : string -> T -> T * option error.

(** ** Result envelopes *)

(** Modelled from the spec: the declarations of [ArtistResponse],
    [ReleaseResponse], [ReleaseGroupResponse], [TagResponse] and of the
    entities are not in the source file; an envelope holds the decoded list of
    entities and the metadata of the list (total count, offset), and an entity
    is opaque. *)
Record ListResponse (E : Type) : Type := mkListResponse {
  Count : Z;
  Offset : Z;
  Entities : list E
}.
Arguments mkListResponse {E} _ _ _.
Arguments Count {E} _.
Arguments Offset {E} _.
Arguments Entities {E} _.

(** Modelled from the spec: the wrappers [artistResult], [releaseResult],
    [releaseGroupResult] and [tagResult] are declared outside the source file;
    each holds one envelope, in the field the search operation returns. *)
Record artistResult (Artist : Type) : Type := mkArtistResult {
  Resonse : ListResponse Artist
}.
Arguments mkArtistResult {Artist} _.
Arguments Resonse {Artist} _.

Record releaseResult (Release : Type) : Type := mkReleaseResult {
  Response : ListResponse Release
}.
Arguments mkReleaseResult {Release} _.
Arguments Response {Release} _.

Record releaseGroupResult (ReleaseGroup : Type) : Type := mkReleaseGroupResult {
  ReleaseGroup_Response : ListResponse ReleaseGroup
}.
Arguments mkReleaseGroupResult {ReleaseGroup} _.
Arguments ReleaseGroup_Response {ReleaseGroup} _.

Record tagResult (Tag : Type) : Type := mkTagResult {
  Tag_Response : ListResponse Tag
}.
Arguments mkTagResult {Tag} _.
Arguments Tag_Response {Tag} _.

(** The zero value of an envelope: [T{}]. *)
Definition zeroResponse {E : Type} : ListResponse E := mkListResponse 0 0 [].

(** ** The client *)

(** [WS2Client]; [WS2RootURL] is a pointer and may be nil. *)
Record WS2Client : Type := mkWS2Client {
  WS2RootURL : option url.URL;
  userAgentHeader : string
}.

(** The calls a method makes into the libraries, in the order it makes them. *)
Inductive Call : Type :=
| CallNewRequest (method rawurl : string)
| CallDo (req : Request)
| CallDecode (body : string)
| CallClose
| CallFatalln (err : error).

(** The receiver [*c] and the calls made so far. *)
Record State : Type := mkState {
  self : WS2Client;
  calls : list Call
}.

(** A method returns to its caller, or the process ends in [log.Fatalln]
    ([os.Exit(1)]), or the goroutine panics on a nil pointer. *)
Inductive Outcome (A : Type) : Type :=
| Returns (a : A) (st : State)
| Exits (st : State)
| Panics (st : State).
Arguments Returns {A} _ _.
Arguments Exits {A} _.
Arguments Panics {A} _.

Definition final {A : Type} (o : Outcome A) : State :=
  match o with
  | Returns _ st => st
  | Exits st => st
  | Panics st => st
  end.

Definition M (A : Type) : Type := State -> Outcome A.

Definition ret {A : Type} (a : A) : M A := fun st => Returns a st.

Definition bind {A B : Type} (m : M A) (k : A -> M B) : M B :=
  fun st =>
    match m st with
    | Returns a st' => k a st'
    | Exits st' => Exits st'
    | Panics st' => Panics st'
    end.

Notation "x <- m ;; k" := (bind m (fun x => k))
  (at level 61, m at next level, right associativity).
Notation "' p <- m ;; k" := (bind m (fun x => let p := x in k))
  (at level 61, p pattern, m at next level, right associativity).
Notation "m ;;; k" := (bind m (fun _ => k))
  (at level 61, right associativity).

Definition getSelf : M WS2Client := fun st => Returns (self st) st.

Definition putSelf (c : WS2Client) : M unit :=
  fun st => Returns tt (mkState c (calls st)).

Definition call (c : Call) : M unit :=
  fun st => Returns tt (mkState (self st) (calls st ++ [c])).

(** [log.Fatalln(err)]: the message is logged and the process exits. *)
Definition log_Fatalln {A : Type} (err : error) : M A :=
  fun st => Exits (mkState (self st) (calls st ++ [CallFatalln err])).

(** [u.String()] on a [*url.URL]: a nil pointer is dereferenced. *)
Definition URL_String (u : option url.URL) : M string :=
  match u with
  | Some u => ret (url.String_ u)
  | None => fun st => Panics st
  end.

Section Client.

Variable env : Env.

(** [http.NewRequest(method, rawurl, nil)]: the request, or the error of
    parsing [rawurl]. *)
Definition http_NewRequest (method rawurl : string) : M (error + Request) :=
  call (CallNewRequest method rawurl) ;;;
  match url_Parse_err env rawurl with
  | Some err => ret (inl err)
  | None => ret (inr (mkRequest method rawurl []))
  end.

Definition http_Do (req : Request) : M (error + HTTPResponse) :=
  call (CallDo req) ;;;
  ret (client_Do env req).

Definition getReqeust {T : Type} `{Unmarshal T}
    (data : T) (params : url.Values) (endpoint : string) : M (T * option error) :=
  c <- getSelf ;;
  root <- URL_String (WS2RootURL c) ;;
  r <- http_NewRequest "GET" (root ++ endpoint ++ "?" ++ url.Encode params) ;;
  match r with
  | inl err => log_Fatalln err
  | inr req =>
      let req := mkRequest (Method req) (RequestURL req)
                   (Header_Set (ReqHeader req) "User-Agent" (userAgentHeader c)) in
      r <- http_Do req ;;
      match r with
      | inl err => log_Fatalln err
      | inr resp =>
          (* defer resp.Body.Close() *)
          call (CallDecode (Body resp)) ;;;
          let '(data, err) := xml_Decode (Body resp) data in
          call CallClose ;;;
          match err with
          | Some err => ret (data, Some err)
          | None => ret (data, None)
          end
      end
  end.

End Client.

(** [intParamToString] returns an empty string for -1. *)
Definition intParamToString (i : Z) : string :=
  if i =? -1 then "" else strconv.Itoa i.

Definition SetClientInfo (application version contact : string) : M unit :=
  c <- getSelf ;;
  putSelf (mkWS2Client (WS2RootURL c)
             (application ++ "/" ++ version ++ " ( " ++ contact ++ " ) ")).

(** [NewWS2Client]: the root [url.Parse] returns for the service address, and
    the default client information. *)
Definition NewWS2Client : WS2Client :=
  let c := mkWS2Client None "" in
  let c := mkWS2Client
             (Some (url.mkURL "https" "musicbrainz.org" "/ws/2" "" ""))
             (userAgentHeader c) in
  self (final (SetClientInfo "GoMusicBrainz - a Golang WS2 client"
                 "0.0.1-beta" "michael@michiwend.com" (mkState c []))).

Section Search.

Variable env : Env.
Context {Artist Release ReleaseGroup Tag : Type}.
Context {decArtist : Unmarshal (artistResult Artist)}.
Context {decRelease : Unmarshal (releaseResult Release)}.
Context {decReleaseGroup : Unmarshal (releaseGroupResult ReleaseGroup)}.
Context {decTag : Unmarshal (tagResult Tag)}.

Definition SearchArtist (searchTerm : string) (limit offset : Z)
  : M (option (ListResponse Artist) * option error) :=
  let result := mkArtistResult zeroResponse in
  let endpoint := "/artist" in
  let params := [ ("query", [searchTerm]);
                  ("limit", [intParamToString limit]);
                  ("offset", [intParamToString offset]) ] in
  '(result, err) <- getReqeust env result params endpoint ;;
  match err with
  | Some err => ret (None, Some err)
  | None => ret (Some (Resonse result), None)
  end.

Definition SearchRelease (searchTerm : string) (limit offset : Z)
  : M (option (ListResponse Release) * option error) :=
  let result := mkReleaseResult zeroResponse in
  let endpoint := "/release" in
  let params := [ ("query", [searchTerm]);
                  ("limit", [intParamToString limit]);
                  ("offset", [intParamToString offset]) ] in
  '(result, err) <- getReqeust env result params endpoint ;;
  match err with
  | Some err => ret (None, Some err)
  | None => ret (Some (Response result), None)
  end.

Definition SearchReleaseGroup (searchTerm : string) (limit offset : Z)
  : M (option (ListResponse ReleaseGroup) * option error) :=
  let result := mkReleaseGroupResult zeroResponse in
  let endpoint := "/release-group" in
  let params := [ ("query", [searchTerm]);
                  ("limit", [intParamToString limit]);
                  ("offset", [intParamToString offset]) ] in
  '(result, err) <- getReqeust env result params endpoint ;;
  match err with
  | Some err => ret (None, Some err)
  | None => ret (Some (ReleaseGroup_Response result), None)
  end.

Definition SearchTag (searchTerm : string) (limit offset : Z)
  : M (option (ListResponse Tag) * option error) :=
  let result := mkTagResult zeroResponse in
  let endpoint := "/tag" in
  let params := [ ("query", [searchTerm]);
                  ("limit", [intParamToString limit]);
                  ("offset", [intParamToString offset]) ] in
  '(result, err) <- getReqeust env result params endpoint ;;
  match err with
  | Some err => ret (None, Some err)
  | None => ret (Some (Tag_Response result), None)
  end.

End Search.

(** ** Observing a call *)

(** A method run on the client [c], from an empty log. *)
Definition run {A : Type} (m : M A) (c : WS2Client) : Outcome A :=
  m (mkState c []).

(** The request line handed to [http.NewRequest]. *)
Definition requestLine {A : Type} (o : Outcome A) : option string :=
  match calls (final o) with
  | CallNewRequest _ rawurl :: _ => Some rawurl
  | _ => None
  end.

(** The requests put on the wire by [client.Do]. *)
Definition sent {A : Type} (o : Outcome A) : list Request :=
  flat_map (fun c => match c with CallDo req => [req] | _ => [] end)
           (calls (final o)).

Abbreviation searchParams term limit offset :=
  [ ("query", [term]);
    ("limit", [intParamToString limit]);
    ("offset", [intParamToString offset]) ] (only parsing).

Abbreviation lineTo u endpoint params :=
  (url.String_ u ++ endpoint ++ "?" ++ url.Encode params) (only parsing).

Abbreviation requestTo c u endpoint params :=
  (mkRequest "GET" (lineTo u endpoint params)
     [("User-Agent", [userAgentHeader c])]) (only parsing).

(** The endpoints of the four search operations, in the order of the source. *)
Definition endpoints : list string :=
  ["/artist"; "/release"; "/release-group"; "/tag"].

(** The closed form of a search that has a root: the request is refused and
    the process exits, or the transport fails and the process exits, or the
    body is decoded and the operation returns. *)
Definition searchOutcome {T R : Type} (env : Env)
    (decode : string -> T * option error) (field : T -> R)
    (c : WS2Client) (line : string) : Outcome (option R * option error) :=
  let req := mkRequest "GET" line [("User-Agent", [userAgentHeader c])] in
  match url_Parse_err env line with
  | Some err => Exits (mkState c [CallNewRequest "GET" line; CallFatalln err])
  | None =>
      match client_Do env req with
      | inl err =>
          Exits (mkState c [CallNewRequest "GET" line; CallDo req; CallFatalln err])
      | inr resp =>
          let st := mkState c [ CallNewRequest "GET" line; CallDo req;
                                CallDecode (Body resp); CallClose ] in
          match decode (Body resp) with
          | (_, Some err) => Returns (None, Some err) st
          | (r, None) => Returns (Some (field r), None) st
          end
      end
  end.

Section Observing.

Variable env : Env.
Context {Artist Release ReleaseGroup Tag : Type}.
Context {decArtist : Unmarshal (artistResult Artist)}.
Context {decRelease : Unmarshal (releaseResult Release)}.
Context {decReleaseGroup : Unmarshal (releaseGroupResult ReleaseGroup)}.
Context {decTag : Unmarshal (tagResult Tag)}.

(** The request lines of the four operations on the same arguments, in the
    order of [endpoints]. *)
Definition requestLines (term : string) (limit offset : Z) (c : WS2Client)
  : list (option string) :=
  [ requestLine (run (SearchArtist env term limit offset) c);
    requestLine (run (SearchRelease env term limit offset) c);
    requestLine (run (SearchReleaseGroup env term limit offset) c);
    requestLine (run (SearchTag env term limit offset) c) ].

(** What each of the four operations puts on the wire. *)
Definition wire (term : string) (limit offset : Z) (c : WS2Client)
  : list (list Request) :=
  [ sent (run (SearchArtist env term limit offset) c);
    sent (run (SearchRelease env term limit offset) c);
    sent (run (SearchReleaseGroup env term limit offset) c);
    sent (run (SearchTag env term limit offset) c) ].

(** The client each of the four operations leaves behind. *)
Definition clientsAfter (term : string) (limit offset : Z) (st : State)
  : list WS2Client :=
  [ self (final (SearchArtist env term limit offset st));
    self (final (SearchRelease env term limit offset st));
    self (final (SearchReleaseGroup env term limit offset st));
    self (final (SearchTag env term limit offset st)) ].

End Observing.

(** ** Contracts of a search operation *)

Section Contracts.

Variable env : Env.
Context {T R : Type} {dec : Unmarshal T}.

(** [zero] is the value the operation hands to the decoder, [endpoint] its
    path and [op] the operation. *)
Variable zero : T.
Variable endpoint : string.
Variable op : string -> Z -> Z -> M (option R * option error).

(** A body the decoder rejects comes back as that error and a nil pointer. *)
Definition DecodeErrorReturned : Prop :=
  forall c u term limit offset resp r e,
    WS2RootURL c = Some u ->
    url_Parse_err env (lineTo u endpoint (searchParams term limit offset)) = None ->
    client_Do env (requestTo c u endpoint (searchParams term limit offset)) = inr resp ->
    xml_Decode (Body resp) zero = (r, Some e) ->
    exists st, run (op term limit offset) c = Returns (None, Some e) st.

(** A failure of the transport ends the process in [log.Fatalln]. *)
Definition TransportFailureExits : Prop :=
  forall c u term limit offset err,
    WS2RootURL c = Some u ->
    url_Parse_err env (lineTo u endpoint (searchParams term limit offset)) = None ->
    client_Do env (requestTo c u endpoint (searchParams term limit offset)) = inl err ->
    run (op term limit offset) c
    = Exits (mkState c
        [ CallNewRequest "GET" (lineTo u endpoint (searchParams term limit offset));
          CallDo (requestTo c u endpoint (searchParams term limit offset));
          CallFatalln err ]).

(** An error that is returned is the error of decoding the body of a response
    the transport delivered. *)
Definition ErrorOnlyFromDecode : Prop :=
  forall c term limit offset p e st,
    run (op term limit offset) c = Returns (p, Some e) st ->
    exists u resp r,
      WS2RootURL c = Some u
      /\ client_Do env (requestTo c u endpoint (searchParams term limit offset)) = inr resp
      /\ xml_Decode (Body resp) zero = (r, Some e).

(** What is returned is a response or an error, never both, never neither. *)
Definition ResultXorError : Prop :=
  forall c term limit offset p e st,
    run (op term limit offset) c = Returns (p, e) st ->
    (p <> None /\ e = None) \/ (p = None /\ e <> None).

(** Once the transport delivers a response, the operation returns: a response
    when the body decodes, the error when it does not. *)
Definition ReturnsWhenAnswered : Prop :=
  forall c u term limit offset resp,
    WS2RootURL c = Some u ->
    url_Parse_err env (lineTo u endpoint (searchParams term limit offset)) = None ->
    client_Do env (requestTo c u endpoint (searchParams term limit offset)) = inr resp ->
    exists p e st,
      run (op term limit offset) c = Returns (p, e) st
      /\ (e = None <-> snd (xml_Decode (Body resp) zero) = None)
      /\ (p = None <-> snd (xml_Decode (Body resp) zero) <> None).

End Contracts.

(** ** A sample service *)

(** A decoder for bodies of the shape
    [<metadata><x-list><x><name>..</name></x>..</x-list></metadata>] with the
    name of an entity as the entity; any other body is a syntax error. *)
Fixpoint takeText (s : string) : string :=
  match s with
  | EmptyString => EmptyString
  | String c s' => if Ascii.eqb c "<" then EmptyString else String c (takeText s')
  end.

Fixpoint names (s : string) : list string :=
  match s with
  | EmptyString => []
  | String _ s' =>
      if prefix "<name>" s then takeText (substring 6 (length s) s) :: names s'
      else names s'
  end.

Definition sampleDecode (body : string) (old : ListResponse string)
  : ListResponse string * option error :=
  if prefix "<metadata>" body then
    (mkListResponse (Z.of_nat (List.length (names body))) 0 (names body), None)
  else (old, Some "expected element type <metadata>").

#[local] Instance sampleArtist : Unmarshal (artistResult string) :=
  fun body data =>
    let '(r, err) := sampleDecode body (Resonse data) in (mkArtistResult r, err).

#[local] Instance sampleRelease : Unmarshal (releaseResult string) :=
  fun body data =>
    let '(r, err) := sampleDecode body (Response data) in (mkReleaseResult r, err).

#[local] Instance sampleReleaseGroup : Unmarshal (releaseGroupResult string) :=
  fun body data =>
    let '(r, err) := sampleDecode body (ReleaseGroup_Response data) in
    (mkReleaseGroupResult r, err).

#[local] Instance sampleTag : Unmarshal (tagResult string) :=
  fun body data =>
    let '(r, err) := sampleDecode body (Tag_Response data) in (mkTagResult r, err).

Definition twoNames : string :=
  "<metadata><list><item><name>The Beatles</name></item>"
  ++ "<item><name>The Tape-beatles</name></item></list></metadata>".

(** A server that knows the term [Beatles], answers the term [broken] with a
    page that is no XML document, and is unreachable for anything else. *)
Definition sampleEnv : Env :=
  mkEnv (fun _ => None)
        (fun req =>
           if String.eqb (Header_Get (ReqHeader req) "User-Agent") "" then
             inl "Get: forbidden"
           else if prefix "query=Beatles"
                     (substring (length (RequestURL req) - 13) 13 (RequestURL req))
           then inr (mkHTTPResponse twoNames)
           else if prefix "query=broken"
                     (substring (length (RequestURL req) - 12) 12 (RequestURL req))
           then inr (mkHTTPResponse "Service Unavailable")
           else inl "dial tcp: connection refused").

(** ** Reading a query string back *)

(** [unhex] of [net/url]: the value of a hexadecimal digit. *)
Definition unhex (c : ascii) : option N :=
  let n := N_of_ascii c in
  if ((48 <=? n) && (n <=? 57))%N then Some (n - 48)%N
  else if ((97 <=? n) && (n <=? 102))%N then Some (n - 97 + 10)%N
  else if ((65 <=? n) && (n <=? 70))%N then Some (n - 65 + 10)%N
  else None.

(** [url.QueryUnescape]: [%XX] is the byte [XX], [+] is a space, a [%] that
    two hexadecimal digits do not follow is an error. *)
Fixpoint QueryUnescape (s : string) : option string :=
  match s with
  | EmptyString => Some EmptyString
  | String c s' =>
      if Ascii.eqb c "%" then
        match s' with
        | String h (String l s'') =>
            match unhex h, unhex l, QueryUnescape s'' with
            | Some a, Some b, Some r => Some (String (ascii_of_N (16 * a + b)) r)
            | _, _, _ => None
            end
        | _ => None
        end
      else if Ascii.eqb c "+" then option_map (String " ") (QueryUnescape s')
      else option_map (String c) (QueryUnescape s')
  end.

(** The number of times a character occurs in a string. *)
Fixpoint countChar (x : ascii) (s : string) : nat :=
  match s with
  | EmptyString => O
  | String c s' => ((if Ascii.eqb c x then 1 else 0) + countChar x s')%nat
  end.

(** ** How a call ends *)

Inductive Ending : Type := Returned | Exited | Panicked.

Definition ending {A : Type} (o : Outcome A) : Ending :=
  match o with
  | Returns _ _ => Returned
  | Exits _ => Exited
  | Panics _ => Panicked
  end.

(** How a call ended and the library calls it made. *)
Definition summary {A : Type} (o : Outcome A) : Ending * list Call :=
  (ending o, calls (final o)).



Section Summaries.

Variable env : Env.
Context {Artist Release ReleaseGroup Tag : Type}.
Context {decArtist : Unmarshal (artistResult Artist)}.
Context {decRelease : Unmarshal (releaseResult Release)}.
Context {decReleaseGroup : Unmarshal (releaseGroupResult ReleaseGroup)}.
Context {decTag : Unmarshal (tagResult Tag)}.

(** The summaries of the four operations on the same arguments, in the order
    of [endpoints]. *)
Definition summaries (term : string) (limit offset : Z) (c : WS2Client)
  : list (Ending * list Call) :=
  [ summary (run (SearchArtist env term limit offset) c);
    summary (run (SearchRelease env term limit offset) c);
    summary (run (SearchReleaseGroup env term limit offset) c);
    summary (run (SearchTag env term limit offset) c) ].

End Summaries.

(** The client after a sequence of [SetClientInfo] calls, each given as
    application, version and contact. *)
Definition configure (infos : list (string * string * string)) (c : WS2Client)
  : WS2Client :=
  fold_left
    (fun c info =>
       let '(application, version, contact) := info in
       self (final (run (SetClientInfo application version contact) c)))
    infos c.

Section MoreContracts.

Variable env : Env.
Context {T R : Type} {dec : Unmarshal T}.
Variable zero : T.
Variable endpoint : string.
Variable field : T -> R.
Variable op : string -> Z -> Z -> M (option R * option error).

(** A body the decoder accepts comes back as the envelope the decoder filled
    in, whole, with a nil error. *)
Definition DecodedReturned : Prop :=
  forall c u term limit offset resp r,
    WS2RootURL c = Some u ->
    url_Parse_err env (lineTo u endpoint (searchParams term limit offset)) = None ->
    client_Do env (requestTo c u endpoint (searchParams term limit offset)) = inr resp ->
    xml_Decode (Body resp) zero = (r, None) ->
    exists st, run (op term limit offset) c = Returns (Some (field r), None) st.

(** A request line [http.NewRequest] refuses ends the process before
    anything is sent. *)
Definition RefusedLineExits : Prop :=
  forall c u term limit offset err,
    WS2RootURL c = Some u ->
    url_Parse_err env (lineTo u endpoint (searchParams term limit offset)) = Some err ->
    run (op term limit offset) c
    = Exits (mkState c
        [ CallNewRequest "GET" (lineTo u endpoint (searchParams term limit offset));
          CallFatalln err ])
    /\ sent (run (op term limit offset) c) = [].

End MoreContracts.

(** A parser that refuses a line starting with a digit, where no scheme can
    start, and a network that is never reached. *)
Definition refusingEnv : Env :=
  mkEnv (fun line =>
           match line with
           | String c _ =>
               if strconv.isDigit c
               then Some "first path segment in URL cannot contain colon"
               else None
           | EmptyString => None
           end)
        (fun _ => inl "unreachable").

(** A client whose root has a scheme that starts with a digit. *)
Definition oddClient : WS2Client :=
  mkWS2Client (Some (url.mkURL "1http" "musicbrainz.org" "/ws/2" "" ""))
    "probe/0.1 ( a@b.c ) ".

Example Itoa_examples :
  strconv.Itoa 0 = "0" /\ strconv.Itoa 25 = "25" /\ strconv.Itoa 100 = "100"
  /\ strconv.Itoa (-2) = "-2" /\ strconv.Itoa (-1) = "-1"
  /\ strconv.Itoa 9223372036854775807 = "9223372036854775807"
  /\ strconv.Itoa (-9223372036854775808) = "-9223372036854775808".
Proof. repeat split; vm_compute; reflexivity. Qed.

Example Encode_examples :
  url.Encode [("query", ["Beatles"]); ("limit", [""]); ("offset", [""])]
  = "limit=&offset=&query=Beatles"
  /\ url.Encode [("foo", ["quux"]); ("bar", ["baz"])] = "bar=baz&foo=quux"
  /\ url.QueryEscape "a b&c=d/~" = "a+b%26c%3Dd%2F~".
Proof. repeat split; vm_compute; reflexivity. Qed.

Example sampleEnv_examples :
  run (SearchArtist sampleEnv "Beatles" (-1) (-1)) NewWS2Client
  = Returns (Some (mkListResponse 2 0 ["The Beatles"; "The Tape-beatles"]), None)
      (mkState NewWS2Client
         [ CallNewRequest "GET"
             "https://musicbrainz.org/ws/2/artist?limit=&offset=&query=Beatles";
           CallDo (mkRequest "GET"
             "https://musicbrainz.org/ws/2/artist?limit=&offset=&query=Beatles"
             [("User-Agent",
               ["GoMusicBrainz - a Golang WS2 client/0.0.1-beta ( michael@michiwend.com ) "])]);
           CallDecode twoNames;
           CallClose ]).
Proof. vm_compute. reflexivity. Qed.

(** ** Strings *)

Lemma append_assoc (s t r : string) : ((s ++ t) ++ r)%string = (s ++ t ++ r)%string.
Proof. induction s as [|c s IH]; simpl; [reflexivity | now rewrite IH]. Qed.

Lemma append_empty_r (s : string) : (s ++ "")%string = s.
Proof. induction s as [|c s IH]; simpl; [reflexivity | now rewrite IH]. Qed.

(** ** Decimal strings *)

Module strconv_facts.
Import strconv.

Lemma digit_cases (d : Z) :
  0 <= d < 10 ->
  d = 0 \/ d = 1 \/ d = 2 \/ d = 3 \/ d = 4 \/ d = 5 \/ d = 6 \/ d = 7 \/ d = 8 \/ d = 9.
Proof. lia. Qed.

Ltac each_digit d H :=
  destruct (digit_cases d H) as [->|[->|[->|[->|[->|[->|[->|[->|[->| ->]]]]]]]]].

Lemma isDigit_digit (d : Z) : 0 <= d < 10 -> isDigit (digit d) = true.
Proof. intros H. each_digit d H; reflexivity. Qed.

Lemma digitVal_digit (d : Z) : 0 <= d < 10 -> digitVal (digit d) = d.
Proof. intros H. each_digit d H; reflexivity. Qed.

Lemma digit_unreserved (d : Z) (s : string) :
  0 <= d < 10 -> url.unreserved (String (digit d) s) = url.unreserved s.
Proof. intros H. each_digit d H; reflexivity. Qed.

Lemma formatBits_acc (fuel : nat) :
  forall u acc, formatBits fuel u acc = (formatBits fuel u "" ++ acc)%string.
Proof.
  induction fuel as [|fuel IH]; intros u acc; simpl.
  - reflexivity.
  - destruct (u <? 10).
    + reflexivity.
    + rewrite (IH _ (String _ acc)), (IH _ (String _ "")), append_assoc.
      reflexivity.
Qed.

Lemma parseDigits_app (s t : string) :
  forall a,
    parseDigits (s ++ t) a
    = match parseDigits s a with Some v => parseDigits t v | None => None end.
Proof.
  induction s as [|c s IH]; intros a; simpl.
  - reflexivity.
  - destruct (isDigit c); [apply IH | reflexivity].
Qed.

Lemma div10_lt_pow2 (u : Z) (n : nat) :
  0 <= u < 2 ^ Z.of_nat (S n) -> 0 <= u / 10 < 2 ^ Z.of_nat n.
Proof.
  intros [H0 H1]. rewrite Nat2Z.inj_succ, Z.pow_succ_r in H1 by lia.
  split.
  - apply Z.div_pos; lia.
  - apply Z.div_lt_upper_bound; lia.
Qed.

(** Reading back what the digit loop wrote gives the number. *)
Lemma parseDigits_formatBits (fuel : nat) :
  forall u, 0 <= u < 2 ^ Z.of_nat fuel ->
    parseDigits (formatBits fuel u "") 0 = Some u.
Proof.
  induction fuel as [|fuel IH]; intros u Hu.
  - simpl in *. f_equal. lia.
  - cbn [formatBits]. destruct (u <? 10) eqn:E.
    + apply Z.ltb_lt in E. cbn [parseDigits].
      rewrite isDigit_digit, digitVal_digit by lia. f_equal; lia.
    + apply Z.ltb_ge in E. rewrite formatBits_acc, parseDigits_app.
      rewrite IH by (apply div10_lt_pow2; exact Hu).
      pose proof (Z.mod_pos_bound u 10 ltac:(lia)) as Hm.
      cbn [parseDigits]. rewrite isDigit_digit, digitVal_digit by exact Hm.
      f_equal. pose proof (Z.div_mod u 10 ltac:(lia)). lia.
Qed.

Lemma fuel_for_enough (u : Z) : 0 <= u -> 0 <= u < 2 ^ Z.of_nat (fuel_for u).
Proof.
  intros H. split; [exact H|]. unfold fuel_for.
  rewrite Nat2Z.inj_succ, Z2Nat.id by apply Z.log2_nonneg.
  destruct (Z.eq_dec u 0) as [->|Hne]; [reflexivity|].
  apply Z.log2_spec. lia.
Qed.

Lemma formatBits_unreserved (fuel : nat) :
  forall u acc, 0 <= u ->
    url.unreserved (formatBits fuel u acc) = url.unreserved acc.
Proof.
  induction fuel as [|fuel IH]; intros u acc Hu; cbn [formatBits].
  - reflexivity.
  - destruct (u <? 10) eqn:E.
    + apply Z.ltb_lt in E. apply digit_unreserved. lia.
    + rewrite IH by (apply Z.div_pos; lia).
      apply digit_unreserved. apply Z.mod_pos_bound. lia.
Qed.

Lemma formatBits_nonempty (fuel : nat) (u : Z) (acc : string) :
  formatBits (S fuel) u acc <> "".
Proof.
  cbn [formatBits]. destruct (u <? 10); [discriminate|].
  rewrite formatBits_acc. destruct (formatBits fuel (u / 10) ""); discriminate.
Qed.

Lemma Atoi_digit_first (c : ascii) (s : string) :
  isDigit c = true -> Atoi (String c s) = parseDigits (String c s) 0.
Proof.
  destruct c as [[] [] [] [] [] [] [] []]; intros H; try discriminate H;
    reflexivity.
Qed.

Lemma Atoi_minus (s : string) :
  s <> "" -> Atoi (String "-" s) = option_map Z.opp (parseDigits s 0).
Proof. destruct s; [congruence | reflexivity]. Qed.

(** [Itoa] writes the decimal representation: reading it gives the number. *)
Lemma Atoi_Itoa (i : Z) : Atoi (Itoa i) = Some i.
Proof.
  unfold Itoa. destruct (i <? 0) eqn:E.
  - apply Z.ltb_lt in E. rewrite Atoi_minus by apply formatBits_nonempty.
    rewrite parseDigits_formatBits by (apply fuel_for_enough; lia).
    simpl. f_equal. lia.
  - apply Z.ltb_ge in E.
    pose proof (parseDigits_formatBits _ _ (fuel_for_enough i E)) as P.
    destruct (formatBits (fuel_for i) i "") as [|c s] eqn:F.
    + exfalso. exact (formatBits_nonempty _ _ _ F).
    + rewrite Atoi_digit_first; [exact P|].
      cbn [parseDigits] in P. destruct (isDigit c); [reflexivity | discriminate].
Qed.

Lemma Itoa_unreserved (i : Z) : url.unreserved (Itoa i) = true.
Proof.
  unfold Itoa. destruct (i <? 0) eqn:E.
  - apply Z.ltb_lt in E. cbn [url.unreserved].
    rewrite formatBits_unreserved by lia. reflexivity.
  - apply Z.ltb_ge in E. rewrite formatBits_unreserved by lia. reflexivity.
Qed.

Lemma Itoa_nonempty (i : Z) : Itoa i <> "".
Proof.
  unfold Itoa. destruct (i <? 0); [discriminate | apply formatBits_nonempty].
Qed.

End strconv_facts.

(** ** Query strings *)

Lemma QueryEscape_unreserved (s : string) :
  url.unreserved s = true -> url.QueryEscape s = s.
Proof.
  induction s as [|c s IH]; simpl; intros H; [reflexivity|].
  apply andb_prop in H as [H Hs]. apply andb_prop in H as [Hsp Hesc].
  apply negb_true_iff in Hsp, Hesc. rewrite Hsp, Hesc, (IH Hs). reflexivity.
Qed.

(** The encoded form of the parameters of a search: the keys in sorted order,
    whatever the order they were written in. *)
Lemma Encode_search (term limit offset : string) :
  url.Encode [("query", [term]); ("limit", [limit]); ("offset", [offset])]
  = ("limit=" ++ url.QueryEscape limit ++ "&offset=" ++ url.QueryEscape offset
     ++ "&query=" ++ url.QueryEscape term)%string.
Proof.
  unfold url.Encode. simpl. rewrite !append_assoc. simpl. reflexivity.
Qed.

(** ** The request pipeline *)

Section Pipeline.

Variable env : Env.

Lemma getReqeust_nil_root {T : Type} {dec : Unmarshal T}
    (data : T) (params : url.Values) (endpoint : string) (st : State) :
  WS2RootURL (self st) = None ->
  getReqeust env data params endpoint st = Panics st.
Proof.
  intros Hroot. unfold getReqeust, bind, getSelf, URL_String.
  rewrite Hroot. reflexivity.
Qed.

Lemma getReqeust_run {T : Type} {dec : Unmarshal T}
    (data : T) (params : url.Values) (endpoint : string)
    (c : WS2Client) (u : url.URL) :
  WS2RootURL c = Some u ->
  run (getReqeust env data params endpoint) c
  = let line := lineTo u endpoint params in
    let req := mkRequest "GET" line [("User-Agent", [userAgentHeader c])] in
    match url_Parse_err env line with
    | Some err => Exits (mkState c [CallNewRequest "GET" line; CallFatalln err])
    | None =>
        match client_Do env req with
        | inl err =>
            Exits (mkState c [CallNewRequest "GET" line; CallDo req; CallFatalln err])
        | inr resp =>
            Returns (xml_Decode (Body resp) data)
              (mkState c [ CallNewRequest "GET" line; CallDo req;
                           CallDecode (Body resp); CallClose ])
        end
    end.
Proof.
  intros Hroot.
  unfold run, getReqeust, http_NewRequest, http_Do, URL_String.
  cbv beta iota zeta delta [bind getSelf call log_Fatalln ret self calls].
  rewrite Hroot.
  cbv beta iota zeta delta [bind getSelf call log_Fatalln ret self calls app].
  destruct (url_Parse_err env _) as [err|]; [reflexivity|].
  cbv beta iota zeta delta
    [self calls app Method RequestURL ReqHeader Header_Set filter].
  destruct (client_Do env _) as [err|resp]; [reflexivity|].
  cbv beta iota zeta delta [self calls app].
  destruct (xml_Decode (Body resp) data) as [r [e|]]; reflexivity.
Qed.

Context {Artist Release ReleaseGroup Tag : Type}.
Context {decArtist : Unmarshal (artistResult Artist)}.
Context {decRelease : Unmarshal (releaseResult Release)}.
Context {decReleaseGroup : Unmarshal (releaseGroupResult ReleaseGroup)}.
Context {decTag : Unmarshal (tagResult Tag)}.

Ltac search_run Hroot :=
  unfold SearchArtist, SearchRelease, SearchReleaseGroup, SearchTag;
  unfold run, bind;
  match goal with
  | |- context [getReqeust env ?d ?ps ?ep (mkState ?c [])] =>
      change (getReqeust env d ps ep (mkState c []))
        with (run (getReqeust env d ps ep) c);
      rewrite (getReqeust_run d ps ep c _ Hroot)
  end;
  unfold searchOutcome; cbv zeta;
  destruct (url_Parse_err env _) as [?|]; [reflexivity|];
  destruct (client_Do env _) as [?|?]; [reflexivity|];
  destruct (xml_Decode _ _) as [? [?|]]; reflexivity.

Lemma SearchArtist_run (c : WS2Client) (u : url.URL) (term : string) (limit offset : Z) :
  WS2RootURL c = Some u ->
  run (SearchArtist env term limit offset) c
  = searchOutcome env (fun body => xml_Decode body (mkArtistResult zeroResponse))
      Resonse c (lineTo u "/artist" (searchParams term limit offset)).
Proof. intros Hroot. search_run Hroot. Qed.

Lemma SearchRelease_run (c : WS2Client) (u : url.URL) (term : string) (limit offset : Z) :
  WS2RootURL c = Some u ->
  run (SearchRelease env term limit offset) c
  = searchOutcome env (fun body => xml_Decode body (mkReleaseResult zeroResponse))
      Response c (lineTo u "/release" (searchParams term limit offset)).
Proof. intros Hroot. search_run Hroot. Qed.

Lemma SearchReleaseGroup_run (c : WS2Client) (u : url.URL) (term : string) (limit offset : Z) :
  WS2RootURL c = Some u ->
  run (SearchReleaseGroup env term limit offset) c
  = searchOutcome env (fun body => xml_Decode body (mkReleaseGroupResult zeroResponse))
      ReleaseGroup_Response c (lineTo u "/release-group" (searchParams term limit offset)).
Proof. intros Hroot. search_run Hroot. Qed.

Lemma SearchTag_run (c : WS2Client) (u : url.URL) (term : string) (limit offset : Z) :
  WS2RootURL c = Some u ->
  run (SearchTag env term limit offset) c
  = searchOutcome env (fun body => xml_Decode body (mkTagResult zeroResponse))
      Tag_Response c (lineTo u "/tag" (searchParams term limit offset)).
Proof. intros Hroot. search_run Hroot. Qed.

End Pipeline.

(** ** What a search leaves in the log *)

Section Outcomes.

Variable env : Env.
Context {T R : Type}.
Variable decode : string -> T * option error.
Variable field : T -> R.

Lemma requestLine_searchOutcome (c : WS2Client) (line : string) :
  requestLine (searchOutcome env decode field c line) = Some line.
Proof.
  unfold searchOutcome. cbv zeta.
  destruct (url_Parse_err env line); [reflexivity|].
  destruct (client_Do env _); [reflexivity|].
  destruct (decode _) as [r [e|]]; reflexivity.
Qed.

Lemma sent_searchOutcome (c : WS2Client) (line : string) :
  sent (searchOutcome env decode field c line)
  = match url_Parse_err env line with
    | Some _ => []
    | None => [mkRequest "GET" line [("User-Agent", [userAgentHeader c])]]
    end.
Proof.
  unfold searchOutcome. cbv zeta.
  destruct (url_Parse_err env line); [reflexivity|].
  destruct (client_Do env _); [reflexivity|].
  destruct (decode _) as [r [e|]]; reflexivity.
Qed.

Lemma searchOutcome_decode_error (c : WS2Client) (line : string)
    (resp : HTTPResponse) (r : T) (e : error) :
  url_Parse_err env line = None ->
  client_Do env (mkRequest "GET" line [("User-Agent", [userAgentHeader c])]) = inr resp ->
  decode (Body resp) = (r, Some e) ->
  exists st, searchOutcome env decode field c line = Returns (None, Some e) st.
Proof.
  intros Hp Hd He. unfold searchOutcome. cbv zeta. rewrite Hp, Hd, He.
  eexists. reflexivity.
Qed.

Lemma searchOutcome_transport_error (c : WS2Client) (line : string) (err : error) :
  url_Parse_err env line = None ->
  client_Do env (mkRequest "GET" line [("User-Agent", [userAgentHeader c])]) = inl err ->
  searchOutcome env decode field c line
  = Exits (mkState c
      [ CallNewRequest "GET" line;
        CallDo (mkRequest "GET" line [("User-Agent", [userAgentHeader c])]);
        CallFatalln err ]).
Proof.
  intros Hp Hd. unfold searchOutcome. cbv zeta. rewrite Hp, Hd. reflexivity.
Qed.

Lemma searchOutcome_returned (c : WS2Client) (line : string)
    (p : option R) (e : option error) (st : State) :
  searchOutcome env decode field c line = Returns (p, e) st ->
  exists resp,
    client_Do env (mkRequest "GET" line [("User-Agent", [userAgentHeader c])]) = inr resp
    /\ e = snd (decode (Body resp))
    /\ p = match e with Some _ => None | None => Some (field (fst (decode (Body resp)))) end.
Proof.
  unfold searchOutcome. cbv zeta.
  destruct (url_Parse_err env line); [discriminate|].
  destruct (client_Do env _) as [err|resp]; [discriminate|].
  intros H. exists resp. split; [reflexivity|].
  destruct (decode (Body resp)) as [r [e'|]]; inversion H; subst; split; reflexivity.
Qed.

Lemma searchOutcome_answered (c : WS2Client) (line : string) (resp : HTTPResponse) :
  url_Parse_err env line = None ->
  client_Do env (mkRequest "GET" line [("User-Agent", [userAgentHeader c])]) = inr resp ->
  exists p e st,
    searchOutcome env decode field c line = Returns (p, e) st
    /\ (e = None <-> snd (decode (Body resp)) = None)
    /\ (p = None <-> snd (decode (Body resp)) <> None).
Proof.
  intros Hp Hd. unfold searchOutcome. cbv zeta. rewrite Hp, Hd.
  destruct (decode (Body resp)) as [r [e|]]; do 3 eexists;
    (split; [reflexivity|]); cbn [snd]; split; split; congruence.
Qed.

End Outcomes.

(** ** The receiver is only read *)

Section Frame.

Variable env : Env.

Lemma getReqeust_frame {T : Type} {dec : Unmarshal T}
    (data : T) (params : url.Values) (endpoint : string) (st : State) :
  self (final (getReqeust env data params endpoint st)) = self st.
Proof.
  unfold getReqeust, http_NewRequest, http_Do, URL_String.
  cbv beta iota zeta delta [bind getSelf call log_Fatalln ret].
  destruct (WS2RootURL (self st)) as [u|]; [|reflexivity].
  cbv beta iota zeta.
  destruct (url_Parse_err env _) as [err|]; [reflexivity|].
  cbv beta iota zeta.
  destruct (client_Do env _) as [err|resp]; [reflexivity|].
  cbv beta iota zeta.
  destruct (xml_Decode (Body resp) data) as [r [e|]]; reflexivity.
Qed.

Context {Artist Release ReleaseGroup Tag : Type}.
Context {decArtist : Unmarshal (artistResult Artist)}.
Context {decRelease : Unmarshal (releaseResult Release)}.
Context {decReleaseGroup : Unmarshal (releaseGroupResult ReleaseGroup)}.
Context {decTag : Unmarshal (tagResult Tag)}.

Ltac search_frame :=
  unfold SearchArtist, SearchRelease, SearchReleaseGroup, SearchTag, bind;
  match goal with
  | |- context [getReqeust env ?d ?ps ?ep ?st] =>
      let F := fresh "F" in
      pose proof (getReqeust_frame d ps ep st) as F;
      destruct (getReqeust env d ps ep st) as [[? [?|]] ?|?|?]; exact F
  end.

Lemma SearchArtist_frame (term : string) (limit offset : Z) (st : State) :
  self (final (SearchArtist env term limit offset st)) = self st.
Proof. search_frame. Qed.

Lemma SearchRelease_frame (term : string) (limit offset : Z) (st : State) :
  self (final (SearchRelease env term limit offset st)) = self st.
Proof. search_frame. Qed.

Lemma SearchReleaseGroup_frame (term : string) (limit offset : Z) (st : State) :
  self (final (SearchReleaseGroup env term limit offset st)) = self st.
Proof. search_frame. Qed.

Lemma SearchTag_frame (term : string) (limit offset : Z) (st : State) :
  self (final (SearchTag env term limit offset st)) = self st.
Proof. search_frame. Qed.

Ltac search_nil Hroot :=
  unfold SearchArtist, SearchRelease, SearchReleaseGroup, SearchTag, run, bind;
  rewrite getReqeust_nil_root by exact Hroot; reflexivity.

Lemma SearchArtist_nil_root (term : string) (limit offset : Z) (c : WS2Client) :
  WS2RootURL c = None ->
  run (SearchArtist env term limit offset) c = Panics (mkState c []).
Proof. intros Hroot. search_nil Hroot. Qed.

Lemma SearchRelease_nil_root (term : string) (limit offset : Z) (c : WS2Client) :
  WS2RootURL c = None ->
  run (SearchRelease env term limit offset) c = Panics (mkState c []).
Proof. intros Hroot. search_nil Hroot. Qed.

Lemma SearchReleaseGroup_nil_root (term : string) (limit offset : Z) (c : WS2Client) :
  WS2RootURL c = None ->
  run (SearchReleaseGroup env term limit offset) c = Panics (mkState c []).
Proof. intros Hroot. search_nil Hroot. Qed.

Lemma SearchTag_nil_root (term : string) (limit offset : Z) (c : WS2Client) :
  WS2RootURL c = None ->
  run (SearchTag env term limit offset) c = Panics (mkState c []).
Proof. intros Hroot. search_nil Hroot. Qed.

(** The request line of each operation: root, endpoint, encoded parameters. *)
Lemma requestLines_eq (c : WS2Client) (u : url.URL) (term : string) (limit offset : Z) :
  WS2RootURL c = Some u ->
  requestLines env term limit offset c
  = map (fun endpoint => Some (lineTo u endpoint (searchParams term limit offset)))
      endpoints.
Proof.
  intros Hroot. unfold requestLines.
  rewrite (SearchArtist_run env c u), (SearchRelease_run env c u),
    (SearchReleaseGroup_run env c u), (SearchTag_run env c u) by exact Hroot.
  rewrite !requestLine_searchOutcome. reflexivity.
Qed.

Lemma wire_eq (c : WS2Client) (u : url.URL) (term : string) (limit offset : Z) :
  WS2RootURL c = Some u ->
  wire env term limit offset c
  = map (fun endpoint =>
           match url_Parse_err env (lineTo u endpoint (searchParams term limit offset)) with
           | Some _ => []
           | None => [requestTo c u endpoint (searchParams term limit offset)]
           end)
      endpoints.
Proof.
  intros Hroot. unfold wire.
  rewrite (SearchArtist_run env c u), (SearchRelease_run env c u),
    (SearchReleaseGroup_run env c u), (SearchTag_run env c u) by exact Hroot.
  rewrite !sent_searchOutcome. reflexivity.
Qed.

End Frame.

(** ** Properties of the client *)

Section Claims.

Variable env : Env.
Context {Artist Release ReleaseGroup Tag : Type}.
Context {decArtist : Unmarshal (artistResult Artist)}.
Context {decRelease : Unmarshal (releaseResult Release)}.
Context {decReleaseGroup : Unmarshal (releaseGroupResult ReleaseGroup)}.
Context {decTag : Unmarshal (tagResult Tag)}.

(** C1: for each of the four search operations, a limit of -1 and an offset
    of -1 give the empty string as the value of that parameter, never the
    string "-1": [intParamToString] maps -1 to the empty string, and the
    request line of every operation carries [limit=] (or [offset=]) with
    nothing after the equals sign, whatever the other arguments are. *)
Theorem sentinel_sends_empty_parameter
    (c : WS2Client) (u : url.URL) (term : string) (other : Z) :
  WS2RootURL c = Some u ->
  intParamToString (-1) = ""
  /\ intParamToString (-1) <> "-1"
  /\ requestLines env term (-1) other c
     = map (fun endpoint =>
              Some (url.String_ u ++ endpoint ++ "?limit=&offset="
                    ++ url.QueryEscape (intParamToString other)
                    ++ "&query=" ++ url.QueryEscape term)%string)
         ["/artist"; "/release"; "/release-group"; "/tag"]
  /\ requestLines env term other (-1) c
     = map (fun endpoint =>
              Some (url.String_ u ++ endpoint ++ "?limit="
                    ++ url.QueryEscape (intParamToString other)
                    ++ "&offset=&query=" ++ url.QueryEscape term)%string)
         ["/artist"; "/release"; "/release-group"; "/tag"].
Proof.
  intros Hroot. split; [reflexivity|]. split; [discriminate|].
  rewrite !(requestLines_eq env c u) by exact Hroot.
  rewrite !Encode_search. change (intParamToString (-1)) with "".
  unfold endpoints. cbn [map url.QueryEscape]. split; reflexivity.
Qed.

(** C5: for a limit between 1 and 100 and an offset of at least 0, the
    parameters of each search operation hold the decimal representation of
    the limit and of the offset: the value is what [strconv.Itoa] writes,
    reading it back gives the number, and the request line of each operation
    carries it unchanged. *)
Theorem valid_limit_offset_sent_in_decimal
    (c : WS2Client) (u : url.URL) (term : string) (limit offset : Z) :
  WS2RootURL c = Some u ->
  1 <= limit <= 100 ->
  0 <= offset ->
  intParamToString limit = strconv.Itoa limit
  /\ intParamToString offset = strconv.Itoa offset
  /\ strconv.Atoi (intParamToString limit) = Some limit
  /\ strconv.Atoi (intParamToString offset) = Some offset
  /\ requestLines env term limit offset c
     = map (fun endpoint =>
              Some (url.String_ u ++ endpoint ++ "?limit=" ++ strconv.Itoa limit
                    ++ "&offset=" ++ strconv.Itoa offset
                    ++ "&query=" ++ url.QueryEscape term)%string)
         ["/artist"; "/release"; "/release-group"; "/tag"].
Proof.
  intros Hroot Hl Ho.
  assert (El : intParamToString limit = strconv.Itoa limit).
  { unfold intParamToString. destruct (limit =? -1) eqn:E; [lia | reflexivity]. }
  assert (Eo : intParamToString offset = strconv.Itoa offset).
  { unfold intParamToString. destruct (offset =? -1) eqn:E; [lia | reflexivity]. }
  rewrite (requestLines_eq env c u) by exact Hroot.
  rewrite Encode_search, El, Eo.
  rewrite !QueryEscape_unreserved by apply strconv_facts.Itoa_unreserved.
  rewrite !strconv_facts.Atoi_Itoa.
  repeat (split; [reflexivity|]).
  unfold endpoints. cbn [map]. cbn [append]. reflexivity.
Qed.

(** C7: each search operation sends its GET to the endpoint of its entity
    kind, appended to the root of the client: [/artist] for [SearchArtist],
    [/release] for [SearchRelease], [/release-group] for
    [SearchReleaseGroup], [/tag] for [SearchTag]; that request line is the one
    handed to [http.NewRequest], and the one request on the wire when the line
    is accepted. *)
Theorem search_endpoints
    (c : WS2Client) (u : url.URL) (term : string) (limit offset : Z) :
  WS2RootURL c = Some u ->
  requestLines env term limit offset c
  = map (fun endpoint =>
           Some (url.String_ u ++ endpoint ++ "?"
                 ++ url.Encode (searchParams term limit offset))%string)
      ["/artist"; "/release"; "/release-group"; "/tag"]
  /\ wire env term limit offset c
     = map (fun endpoint =>
              match url_Parse_err env
                      (lineTo u endpoint (searchParams term limit offset)) with
              | Some _ => []
              | None =>
                  [ mkRequest "GET"
                      (url.String_ u ++ endpoint ++ "?"
                       ++ url.Encode (searchParams term limit offset))
                      [("User-Agent", [userAgentHeader c])] ]
              end)
         ["/artist"; "/release"; "/release-group"; "/tag"].
Proof.
  intros Hroot. split.
  - apply requestLines_eq. exact Hroot.
  - apply wire_eq. exact Hroot.
Qed.

(** C8: no search operation changes the configuration of the client: after
    [SearchArtist], [SearchRelease], [SearchReleaseGroup] or [SearchTag],
    however the call ends, [WS2RootURL] and [userAgentHeader] are what they
    were before it. *)
Theorem search_keeps_configuration (term : string) (limit offset : Z) (st : State) :
  clientsAfter env term limit offset st = [self st; self st; self st; self st]
  /\ Forall (fun c' => WS2RootURL c' = WS2RootURL (self st)
                       /\ userAgentHeader c' = userAgentHeader (self st))
       (clientsAfter env term limit offset st).
Proof.
  assert (E : clientsAfter env term limit offset st
              = [self st; self st; self st; self st]).
  { unfold clientsAfter.
    rewrite SearchArtist_frame, SearchRelease_frame, SearchReleaseGroup_frame,
      SearchTag_frame. reflexivity. }
  split; [exact E|]. rewrite E. repeat constructor.
Qed.

(** C9: -1 is the only sentinel: any other integer given as limit or offset,
    0 and the negative numbers other than -1 included, goes into the request
    as its decimal representation (-2 as "-2"), and no operation checks the
    range before building the request line. *)
Theorem only_minus_one_is_sentinel
    (c : WS2Client) (u : url.URL) (term : string) (i other : Z) :
  WS2RootURL c = Some u ->
  i <> -1 ->
  intParamToString i = strconv.Itoa i
  /\ intParamToString i <> ""
  /\ strconv.Atoi (intParamToString i) = Some i
  /\ intParamToString (-2) = "-2"
  /\ intParamToString 0 = "0"
  /\ requestLines env term i other c
     = map (fun endpoint =>
              Some (url.String_ u ++ endpoint ++ "?limit=" ++ strconv.Itoa i
                    ++ "&offset=" ++ url.QueryEscape (intParamToString other)
                    ++ "&query=" ++ url.QueryEscape term)%string)
         ["/artist"; "/release"; "/release-group"; "/tag"]
  /\ requestLines env term other i c
     = map (fun endpoint =>
              Some (url.String_ u ++ endpoint ++ "?limit="
                    ++ url.QueryEscape (intParamToString other)
                    ++ "&offset=" ++ strconv.Itoa i
                    ++ "&query=" ++ url.QueryEscape term)%string)
         ["/artist"; "/release"; "/release-group"; "/tag"].
Proof.
  intros Hroot Hi.
  assert (Ei : intParamToString i = strconv.Itoa i).
  { unfold intParamToString. destruct (i =? -1) eqn:E; [lia | reflexivity]. }
  rewrite !(requestLines_eq env c u) by exact Hroot.
  rewrite !Encode_search, !Ei.
  rewrite !QueryEscape_unreserved by apply strconv_facts.Itoa_unreserved.
  rewrite strconv_facts.Atoi_Itoa.
  split; [reflexivity|]. split; [apply strconv_facts.Itoa_nonempty|].
  repeat (split; [reflexivity|]).
  unfold endpoints. cbn [map]. cbn [append]. split; reflexivity.
Qed.

(** C3: for each search operation, when the body of the response does not
    decode into the envelope of the operation, the operation returns the error
    of the decoder and a nil response pointer. *)
Theorem malformed_body_returns_decode_error :
  DecodeErrorReturned env (mkArtistResult (Artist:=Artist) zeroResponse)
    "/artist" (SearchArtist env)
  /\ DecodeErrorReturned env (mkReleaseResult (Release:=Release) zeroResponse)
       "/release" (SearchRelease env)
  /\ DecodeErrorReturned env
       (mkReleaseGroupResult (ReleaseGroup:=ReleaseGroup) zeroResponse)
       "/release-group" (SearchReleaseGroup env)
  /\ DecodeErrorReturned env (mkTagResult (Tag:=Tag) zeroResponse)
       "/tag" (SearchTag env).
Proof.
  repeat split; intros c u term limit offset resp r e Hroot Hp Hd He.
  - rewrite (SearchArtist_run env c u) by exact Hroot.
    exact (searchOutcome_decode_error env _ _ c _ resp r e Hp Hd He).
  - rewrite (SearchRelease_run env c u) by exact Hroot.
    exact (searchOutcome_decode_error env _ _ c _ resp r e Hp Hd He).
  - rewrite (SearchReleaseGroup_run env c u) by exact Hroot.
    exact (searchOutcome_decode_error env _ _ c _ resp r e Hp Hd He).
  - rewrite (SearchTag_run env c u) by exact Hroot.
    exact (searchOutcome_decode_error env _ _ c _ resp r e Hp Hd He).
Qed.

Ltac returned_has_root run_lemma nil_lemma H u :=
  let Hroot := fresh "Hroot" in
  match type of H with
  | run _ ?c = Returns _ _ =>
      destruct (WS2RootURL c) as [u|] eqn:Hroot;
      [ rewrite (run_lemma env _ _ c u) in H by exact Hroot;
        apply searchOutcome_returned in H
      | rewrite nil_lemma in H by exact Hroot; discriminate H ]
  end.

Ltac error_only_from_decode run_lemma nil_lemma :=
  let H := fresh "H" in
  let u := fresh "u" in
  let resp := fresh "resp" in
  let Hd := fresh "Hd" in
  let He := fresh "He" in
  intros ? ? ? ? ? ? ? H;
  returned_has_root run_lemma nil_lemma H u;
  destruct H as (resp & Hd & He & _);
  match type of He with
  | _ = snd ?d =>
      exists u, resp, (fst d);
      split; [reflexivity|]; split; [exact Hd|];
      rewrite He; destruct d; reflexivity
  end.

Ltac transport_exits run_lemma :=
  let Hroot := fresh "Hroot" in
  let Hp := fresh "Hp" in
  let Hd := fresh "Hd" in
  intros ? ? ? ? ? ? Hroot Hp Hd;
  rewrite (run_lemma env _ _ _ _ _ _ _ Hroot);
  exact (searchOutcome_transport_error env _ _ _ _ _ Hp Hd).

(** C4: for each search operation, a failure of the transport during the GET
    ends the process ([log.Fatalln]) instead of coming back as an error value,
    and an error that does come back is always the error of decoding a body
    the transport delivered. *)
Theorem transport_failure_exits :
  (TransportFailureExits env "/artist" (SearchArtist env)
   /\ ErrorOnlyFromDecode env (mkArtistResult (Artist:=Artist) zeroResponse)
        "/artist" (SearchArtist env))
  /\ (TransportFailureExits env "/release" (SearchRelease env)
      /\ ErrorOnlyFromDecode env (mkReleaseResult (Release:=Release) zeroResponse)
           "/release" (SearchRelease env))
  /\ (TransportFailureExits env "/release-group" (SearchReleaseGroup env)
      /\ ErrorOnlyFromDecode env
           (mkReleaseGroupResult (ReleaseGroup:=ReleaseGroup) zeroResponse)
           "/release-group" (SearchReleaseGroup env))
  /\ (TransportFailureExits env "/tag" (SearchTag env)
      /\ ErrorOnlyFromDecode env (mkTagResult (Tag:=Tag) zeroResponse)
           "/tag" (SearchTag env)).
Proof.
  repeat split.
  - transport_exits SearchArtist_run.
  - error_only_from_decode SearchArtist_run SearchArtist_nil_root.
  - transport_exits SearchRelease_run.
  - error_only_from_decode SearchRelease_run SearchRelease_nil_root.
  - transport_exits SearchReleaseGroup_run.
  - error_only_from_decode SearchReleaseGroup_run SearchReleaseGroup_nil_root.
  - transport_exits SearchTag_run.
  - error_only_from_decode SearchTag_run SearchTag_nil_root.
Qed.

Ltac result_xor_error run_lemma nil_lemma :=
  let H := fresh "H" in
  let u := fresh "u" in
  let Hp := fresh "Hp" in
  intros ? ? ? ? ? ? ? H;
  returned_has_root run_lemma nil_lemma H u;
  destruct H as (? & _ & _ & Hp);
  match type of Hp with
  | _ = match ?e with _ => _ end => destruct e; [right | left]
  end;
  rewrite Hp; split; congruence.

Ltac returns_when_answered run_lemma :=
  let Hroot := fresh "Hroot" in
  let Hp := fresh "Hp" in
  let Hd := fresh "Hd" in
  intros ? ? ? ? ? ? Hroot Hp Hd;
  rewrite (run_lemma env _ _ _ _ _ _ _ Hroot);
  exact (searchOutcome_answered env _ _ _ _ _ Hp Hd).

(** C10: what a search operation returns is a response or an error: on
    success the response pointer is not nil and the error is nil, on failure
    the pointer is nil and the error is not; never both, never neither.  And
    it does return once the transport has delivered a response. *)
Theorem search_returns_result_xor_error :
  (ResultXorError (SearchArtist (Artist:=Artist) env)
   /\ ReturnsWhenAnswered env (mkArtistResult (Artist:=Artist) zeroResponse)
        "/artist" (SearchArtist env))
  /\ (ResultXorError (SearchRelease (Release:=Release) env)
      /\ ReturnsWhenAnswered env (mkReleaseResult (Release:=Release) zeroResponse)
           "/release" (SearchRelease env))
  /\ (ResultXorError (SearchReleaseGroup (ReleaseGroup:=ReleaseGroup) env)
      /\ ReturnsWhenAnswered env
           (mkReleaseGroupResult (ReleaseGroup:=ReleaseGroup) zeroResponse)
           "/release-group" (SearchReleaseGroup env))
  /\ (ResultXorError (SearchTag (Tag:=Tag) env)
      /\ ReturnsWhenAnswered env (mkTagResult (Tag:=Tag) zeroResponse)
           "/tag" (SearchTag env)).
Proof.
  repeat split.
  - result_xor_error SearchArtist_run SearchArtist_nil_root.
  - returns_when_answered SearchArtist_run.
  - result_xor_error SearchRelease_run SearchRelease_nil_root.
  - returns_when_answered SearchRelease_run.
  - result_xor_error SearchReleaseGroup_run SearchReleaseGroup_nil_root.
  - returns_when_answered SearchReleaseGroup_run.
  - result_xor_error SearchTag_run SearchTag_nil_root.
  - returns_when_answered SearchTag_run.
Qed.

End Claims.

(** ** The identifying header *)

Lemma length_append (s t : string) :
  String.length (s ++ t) = (String.length s + String.length t)%nat.
Proof. induction s as [|c s IH]; simpl; [reflexivity | now rewrite IH]. Qed.

(** C2: [SetClientInfo] stores the application, a slash, the version and the
    contact between [" ( "] and [" ) "]: the header ends in a space after the
    closing parenthesis, so it is the format
    ["<application>/<version> ( <contact> )"] followed by one more character,
    and for ["App"], ["1.0"], ["a@b.com"] it is ["App/1.0 ( a@b.com ) "],
    which is not ["App/1.0 ( a@b.com )"]. *)
Theorem SetClientInfo_trailing_space :
  (forall (application version contact : string) (st : State),
      let header :=
        userAgentHeader
          (self (final (SetClientInfo application version contact st))) in
      header = ((application ++ "/" ++ version ++ " ( " ++ contact ++ " )") ++ " ")%string
      /\ header <> (application ++ "/" ++ version ++ " ( " ++ contact ++ " )")%string
      /\ WS2RootURL (self (final (SetClientInfo application version contact st)))
         = WS2RootURL (self st))
  /\ userAgentHeader
       (self (final (run (SetClientInfo "App" "1.0" "a@b.com") NewWS2Client)))
     = "App/1.0 ( a@b.com ) "
  /\ userAgentHeader
       (self (final (run (SetClientInfo "App" "1.0" "a@b.com") NewWS2Client)))
     <> "App/1.0 ( a@b.com )".
Proof.
  split; [|split; [reflexivity | discriminate]].
  intros application version contact st header.
  assert (E : header
              = ((application ++ "/" ++ version ++ " ( " ++ contact ++ " )") ++ " ")%string).
  { subst header. unfold SetClientInfo, bind, getSelf, putSelf.
    cbn [final self userAgentHeader].
    repeat (rewrite append_assoc; cbn [append]). reflexivity. }
  split; [exact E|]. split; [|reflexivity].
  rewrite E. intros H. apply (f_equal String.length) in H.
  rewrite length_append in H. cbn [String.length] in H. lia.
Qed.

(** ** The default client and the term [Beatles] *)

Section Scenario.

Variable env : Env.
Context {Artist : Type} {decArtist : Unmarshal (artistResult Artist)}.

(** C6, as the code has it: [SearchArtist("Beatles", -1, -1)] on the default
    client sends one GET, for
    [https://musicbrainz.org/ws/2/artist?limit=&offset=&query=Beatles] (the
    parameters in the order of their keys), and when the body that comes back
    decodes into two artists, the list returned holds these two, in that
    order. *)
Theorem SearchArtist_Beatles_default
    (resp : HTTPResponse) (r : artistResult Artist) (a1 a2 : Artist) :
  url_Parse_err env
    "https://musicbrainz.org/ws/2/artist?limit=&offset=&query=Beatles" = None ->
  client_Do env
    (mkRequest "GET"
       "https://musicbrainz.org/ws/2/artist?limit=&offset=&query=Beatles"
       [("User-Agent", [userAgentHeader NewWS2Client])]) = inr resp ->
  xml_Decode (Body resp) (mkArtistResult zeroResponse) = (r, None) ->
  Entities (Resonse r) = [a1; a2] ->
  map RequestURL (sent (run (SearchArtist env "Beatles" (-1) (-1)) NewWS2Client))
  = ["https://musicbrainz.org/ws/2/artist?limit=&offset=&query=Beatles"]
  /\ map Method (sent (run (SearchArtist env "Beatles" (-1) (-1)) NewWS2Client))
     = ["GET"]
  /\ exists found st,
       run (SearchArtist env "Beatles" (-1) (-1)) NewWS2Client
       = Returns (Some found, None) st
       /\ Entities found = [a1; a2]
       /\ List.length (Entities found) = 2%nat.
Proof.
  intros Hp Hd He Hr.
  rewrite (SearchArtist_run env NewWS2Client
             (url.mkURL "https" "musicbrainz.org" "/ws/2" "" "")) by reflexivity.
  change (lineTo (url.mkURL "https" "musicbrainz.org" "/ws/2" "" "") "/artist"
            (searchParams "Beatles" (-1) (-1)))
    with "https://musicbrainz.org/ws/2/artist?limit=&offset=&query=Beatles".
  rewrite sent_searchOutcome, Hp. split; [reflexivity|]. split; [reflexivity|].
  unfold searchOutcome. cbv zeta. rewrite Hp, Hd, He.
  do 2 eexists. split; [reflexivity|]. rewrite Hr. split; reflexivity.
Qed.

End Scenario.

(** ** The properties on the sample service *)

Lemma sentinel_sends_empty_parameter_witness :
  WS2RootURL NewWS2Client = Some (url.mkURL "https" "musicbrainz.org" "/ws/2" "" "")
  /\ requestLines sampleEnv "Beatles" (-1) 10 NewWS2Client
     = [ Some "https://musicbrainz.org/ws/2/artist?limit=&offset=10&query=Beatles";
         Some "https://musicbrainz.org/ws/2/release?limit=&offset=10&query=Beatles";
         Some "https://musicbrainz.org/ws/2/release-group?limit=&offset=10&query=Beatles";
         Some "https://musicbrainz.org/ws/2/tag?limit=&offset=10&query=Beatles" ].
Proof.
  split; [reflexivity|].
  exact (proj1 (proj2 (proj2
    (sentinel_sends_empty_parameter sampleEnv NewWS2Client _ "Beatles" 10 eq_refl)))).
Defined.

Lemma valid_limit_offset_sent_in_decimal_witness :
  WS2RootURL NewWS2Client = Some (url.mkURL "https" "musicbrainz.org" "/ws/2" "" "")
  /\ 1 <= 100 <= 100
  /\ 0 <= 25
  /\ requestLines sampleEnv "Abbey Road" 100 25 NewWS2Client
     = [ Some "https://musicbrainz.org/ws/2/artist?limit=100&offset=25&query=Abbey+Road";
         Some "https://musicbrainz.org/ws/2/release?limit=100&offset=25&query=Abbey+Road";
         Some "https://musicbrainz.org/ws/2/release-group?limit=100&offset=25&query=Abbey+Road";
         Some "https://musicbrainz.org/ws/2/tag?limit=100&offset=25&query=Abbey+Road" ].
Proof.
  split; [reflexivity|]. split; [lia|]. split; [lia|].
  exact (proj2 (proj2 (proj2 (proj2
    (valid_limit_offset_sent_in_decimal sampleEnv NewWS2Client _ "Abbey Road" 100 25
       eq_refl ltac:(lia) ltac:(lia)))))).
Defined.

Lemma search_endpoints_witness :
  WS2RootURL NewWS2Client = Some (url.mkURL "https" "musicbrainz.org" "/ws/2" "" "")
  /\ map (map RequestURL) (wire sampleEnv "Beatles" 2 0 NewWS2Client)
     = [ ["https://musicbrainz.org/ws/2/artist?limit=2&offset=0&query=Beatles"];
         ["https://musicbrainz.org/ws/2/release?limit=2&offset=0&query=Beatles"];
         ["https://musicbrainz.org/ws/2/release-group?limit=2&offset=0&query=Beatles"];
         ["https://musicbrainz.org/ws/2/tag?limit=2&offset=0&query=Beatles"] ].
Proof.
  split; [reflexivity|].
  exact (f_equal (map (map RequestURL))
    (proj2 (search_endpoints sampleEnv NewWS2Client _ "Beatles" 2 0 eq_refl))).
Defined.

Lemma only_minus_one_is_sentinel_witness :
  WS2RootURL NewWS2Client = Some (url.mkURL "https" "musicbrainz.org" "/ws/2" "" "")
  /\ -2 <> -1
  /\ requestLines sampleEnv "Beatles" (-2) 0 NewWS2Client
     = [ Some "https://musicbrainz.org/ws/2/artist?limit=-2&offset=0&query=Beatles";
         Some "https://musicbrainz.org/ws/2/release?limit=-2&offset=0&query=Beatles";
         Some "https://musicbrainz.org/ws/2/release-group?limit=-2&offset=0&query=Beatles";
         Some "https://musicbrainz.org/ws/2/tag?limit=-2&offset=0&query=Beatles" ].
Proof.
  split; [reflexivity|]. split; [lia|].
  exact (proj1 (proj2 (proj2 (proj2 (proj2 (proj2
    (only_minus_one_is_sentinel sampleEnv NewWS2Client _ "Beatles" (-2) 0
       eq_refl ltac:(lia)))))))).
Defined.

Lemma malformed_body_returns_decode_error_witness :
  client_Do sampleEnv
    (mkRequest "GET" "https://musicbrainz.org/ws/2/release?limit=&offset=&query=broken"
       [("User-Agent", [userAgentHeader NewWS2Client])])
  = inr (mkHTTPResponse "Service Unavailable")
  /\ xml_Decode "Service Unavailable" (mkReleaseResult (Release:=string) zeroResponse)
     = (mkReleaseResult zeroResponse, Some "expected element type <metadata>")
  /\ exists st,
       run (SearchRelease sampleEnv "broken" (-1) (-1)) NewWS2Client
       = Returns (None, Some "expected element type <metadata>") st.
Proof.
  split; [reflexivity|]. split; [reflexivity|].
  exact (proj1 (proj2 (malformed_body_returns_decode_error sampleEnv))
           NewWS2Client (url.mkURL "https" "musicbrainz.org" "/ws/2" "" "")
           "broken" (-1) (-1) (mkHTTPResponse "Service Unavailable")
           (mkReleaseResult zeroResponse) "expected element type <metadata>"
           eq_refl eq_refl eq_refl eq_refl).
Defined.

Lemma transport_failure_exits_witness :
  client_Do sampleEnv
    (mkRequest "GET" "https://musicbrainz.org/ws/2/tag?limit=5&offset=0&query=rock"
       [("User-Agent", [userAgentHeader NewWS2Client])])
  = inl "dial tcp: connection refused"
  /\ (exists st, run (SearchTag sampleEnv "rock" 5 0) NewWS2Client = Exits st)
  /\ (exists u resp r,
        WS2RootURL NewWS2Client = Some u
        /\ client_Do sampleEnv
             (requestTo NewWS2Client u "/artist" (searchParams "broken" (-1) (-1)))
           = inr resp
        /\ xml_Decode (Body resp) (mkArtistResult (Artist:=string) zeroResponse)
           = (r, Some "expected element type <metadata>")).
Proof.
  split; [reflexivity|]. split.
  - eexists.
    exact (proj1 (proj2 (proj2 (proj2 (transport_failure_exits sampleEnv))))
             NewWS2Client (url.mkURL "https" "musicbrainz.org" "/ws/2" "" "")
             "rock" 5 0 "dial tcp: connection refused" eq_refl eq_refl eq_refl).
  - exact (proj2 (proj1 (transport_failure_exits sampleEnv))
             NewWS2Client "broken" (-1) (-1) None
             "expected element type <metadata>"
             (mkState NewWS2Client
                [ CallNewRequest "GET"
                    "https://musicbrainz.org/ws/2/artist?limit=&offset=&query=broken";
                  CallDo (mkRequest "GET"
                    "https://musicbrainz.org/ws/2/artist?limit=&offset=&query=broken"
                    [("User-Agent", [userAgentHeader NewWS2Client])]);
                  CallDecode "Service Unavailable";
                  CallClose ])
             eq_refl).
Defined.

Lemma search_returns_result_xor_error_witness :
  run (SearchArtist sampleEnv "Beatles" (-1) (-1)) NewWS2Client
  = Returns (Some (mkListResponse 2 0 ["The Beatles"; "The Tape-beatles"]), None)
      (mkState NewWS2Client
         [ CallNewRequest "GET"
             "https://musicbrainz.org/ws/2/artist?limit=&offset=&query=Beatles";
           CallDo (mkRequest "GET"
             "https://musicbrainz.org/ws/2/artist?limit=&offset=&query=Beatles"
             [("User-Agent", [userAgentHeader NewWS2Client])]);
           CallDecode twoNames;
           CallClose ])
  /\ ((Some (mkListResponse 2 0 ["The Beatles"; "The Tape-beatles"]) <> None
       /\ @None error = None)
      \/ (Some (mkListResponse 2 0 ["The Beatles"; "The Tape-beatles"]) = None
          /\ @None error <> None)).
Proof.
  split; [reflexivity|].
  exact (proj1 (proj1 (search_returns_result_xor_error sampleEnv))
           NewWS2Client "Beatles" (-1) (-1) _ _ _ eq_refl).
Defined.

Lemma SearchArtist_Beatles_default_witness :
  client_Do sampleEnv
    (mkRequest "GET"
       "https://musicbrainz.org/ws/2/artist?limit=&offset=&query=Beatles"
       [("User-Agent", [userAgentHeader NewWS2Client])])
  = inr (mkHTTPResponse twoNames)
  /\ xml_Decode twoNames (mkArtistResult (Artist:=string) zeroResponse)
     = (mkArtistResult (mkListResponse 2 0 ["The Beatles"; "The Tape-beatles"]), None)
  /\ map RequestURL (sent (run (SearchArtist sampleEnv "Beatles" (-1) (-1)) NewWS2Client))
     = ["https://musicbrainz.org/ws/2/artist?limit=&offset=&query=Beatles"].
Proof.
  split; [reflexivity|]. split; [reflexivity|].
  exact (proj1 (SearchArtist_Beatles_default sampleEnv (mkHTTPResponse twoNames)
                  (mkArtistResult (mkListResponse 2 0 ["The Beatles"; "The Tape-beatles"]))
                  "The Beatles" "The Tape-beatles" eq_refl eq_refl eq_refl eq_refl)).
Defined.

(** C6, as stated: the query string of the request is not
    [?query=Beatles&limit=&offset=]; [Encode] writes the keys in sorted
    order. *)
Lemma SearchArtist_Beatles_query_order :
  map RequestURL (sent (run (SearchArtist sampleEnv "Beatles" (-1) (-1)) NewWS2Client))
  = ["https://musicbrainz.org/ws/2/artist?limit=&offset=&query=Beatles"]
  /\ map RequestURL (sent (run (SearchArtist sampleEnv "Beatles" (-1) (-1)) NewWS2Client))
     <> ["https://musicbrainz.org/ws/2/artist?query=Beatles&limit=&offset="]
  /\ requestLine (run (SearchArtist sampleEnv "Beatles" (-1) (-1)) NewWS2Client)
     <> Some "https://musicbrainz.org/ws/2/artist?query=Beatles&limit=&offset=".
Proof.
  split; [reflexivity|]. split; intros H; vm_compute in H; discriminate H.
Qed.

(** ** The query string, read back *)

Lemma append_inv_head (s a b : string) : (s ++ a)%string = (s ++ b)%string -> a = b.
Proof.
  induction s as [|c s IH]; simpl; intros H; [exact H|].
  injection H as H. exact (IH H).
Qed.

Lemma countChar_app (x : ascii) (s t : string) :
  countChar x (s ++ t) = (countChar x s + countChar x t)%nat.
Proof.
  induction s as [|c s IH]; simpl; [reflexivity|]. rewrite IH. lia.
Qed.

(** Two strings cut at the first occurrence of a character agree on both
    sides of the cut. *)
Lemma split_at_char (x : ascii) (a : string) :
  forall a' r r',
    countChar x a = O -> countChar x a' = O ->
    (a ++ String x r)%string = (a' ++ String x r')%string ->
    a = a' /\ r = r'.
Proof.
  induction a as [|c a IH]; intros [|c' a'] r r' Ha Ha' H; simpl in *.
  - injection H as H. split; [reflexivity | exact H].
  - injection H as Hc H. subst c'. rewrite Ascii.eqb_refl in Ha'. discriminate.
  - injection H as Hc H. subst c. rewrite Ascii.eqb_refl in Ha. discriminate.
  - injection H as Hc H. subst c'.
    destruct (Ascii.eqb c x); [discriminate|].
    destruct (IH a' r r' Ha Ha' H) as [-> ->]. split; reflexivity.
Qed.

Lemma QueryEscape_no_delimiter (x : ascii) (s : string) :
  In x ["&"; "="; "?"; "#"; " "]%char ->
  countChar x (url.QueryEscape s) = O.
Proof.
  intros Hx. induction s as [|c s IH]; [reflexivity|].
  cbn [In] in Hx.
  destruct Hx as [<-|[<-|[<-|[<-|[<-|[]]]]]];
    destruct c as [[] [] [] [] [] [] [] []]; exact IH.
Qed.

Lemma QueryUnescape_step (c : ascii) (s : string) :
  QueryUnescape (url.QueryEscape (String c s))
  = option_map (String c) (QueryUnescape (url.QueryEscape s)).
Proof.
  destruct c as [[] [] [] [] [] [] [] []]; cbn;
    destruct (QueryUnescape (url.QueryEscape s)); reflexivity.
Qed.

Lemma QueryUnescape_roundtrip (s : string) :
  QueryUnescape (url.QueryEscape s) = Some s.
Proof.
  induction s as [|c s IH]; [reflexivity|].
  rewrite QueryUnescape_step, IH. reflexivity.
Qed.

Lemma QueryEscape_inj (s t : string) :
  url.QueryEscape s = url.QueryEscape t -> s = t.
Proof.
  intros H. apply (f_equal QueryUnescape) in H.
  rewrite !QueryUnescape_roundtrip in H. injection H as H. exact H.
Qed.

Lemma intParamToString_inj (i j : Z) :
  intParamToString i = intParamToString j -> i = j.
Proof.
  unfold intParamToString.
  destruct (i =? -1) eqn:Ei, (j =? -1) eqn:Ej; intros H.
  - apply Z.eqb_eq in Ei, Ej. lia.
  - symmetry in H. destruct (strconv_facts.Itoa_nonempty j H).
  - destruct (strconv_facts.Itoa_nonempty i H).
  - apply (f_equal strconv.Atoi) in H.
    rewrite !strconv_facts.Atoi_Itoa in H. injection H as H. exact H.
Qed.

Lemma Encode_search_cut (term limit offset : string) :
  url.Encode [("query", [term]); ("limit", [limit]); ("offset", [offset])]
  = ("limit="
     ++ (url.QueryEscape limit
         ++ String "&"
              ("offset="
               ++ (url.QueryEscape offset
                   ++ String "&" ("query=" ++ url.QueryEscape term)))))%string.
Proof. rewrite Encode_search. reflexivity. Qed.

Lemma Encode_search_inj (term limit offset term' limit' offset' : string) :
  url.Encode [("query", [term]); ("limit", [limit]); ("offset", [offset])]
  = url.Encode [("query", [term']); ("limit", [limit']); ("offset", [offset'])] ->
  term = term' /\ limit = limit' /\ offset = offset'.
Proof.
  rewrite !Encode_search_cut. intros H.
  assert (amp : In "&"%char ["&"; "="; "?"; "#"; " "]%char) by (left; reflexivity).
  apply append_inv_head in H.
  apply split_at_char in H as [Hl H];
    try (apply QueryEscape_no_delimiter; exact amp).
  apply append_inv_head in H.
  apply split_at_char in H as [Ho H];
    try (apply QueryEscape_no_delimiter; exact amp).
  apply append_inv_head in H.
  repeat split; apply QueryEscape_inj; assumption.
Qed.

(** ** How a search ends *)

Section Endings.

Variable env : Env.

Lemma summary_searchOutcome {T R : Type}
    (decode : string -> T * option error) (field : T -> R)
    (c : WS2Client) (line : string) :
  summary (searchOutcome env decode field c line)
  = match url_Parse_err env line with
    | Some err => (Exited, [CallNewRequest "GET" line; CallFatalln err])
    | None =>
        match client_Do env
                (mkRequest "GET" line [("User-Agent", [userAgentHeader c])]) with
        | inl err =>
            (Exited,
             [ CallNewRequest "GET" line;
               CallDo (mkRequest "GET" line [("User-Agent", [userAgentHeader c])]);
               CallFatalln err ])
        | inr resp =>
            (Returned,
             [ CallNewRequest "GET" line;
               CallDo (mkRequest "GET" line [("User-Agent", [userAgentHeader c])]);
               CallDecode (Body resp); CallClose ])
        end
    end.
Proof.
  unfold searchOutcome. cbv zeta.
  destruct (url_Parse_err env line); [reflexivity|].
  destruct (client_Do env _); [reflexivity|].
  destruct (decode _) as [r [e|]]; reflexivity.
Qed.

Lemma searchOutcome_decoded {T R : Type}
    (decode : string -> T * option error) (field : T -> R)
    (c : WS2Client) (line : string) (resp : HTTPResponse) (r : T) :
  url_Parse_err env line = None ->
  client_Do env (mkRequest "GET" line [("User-Agent", [userAgentHeader c])]) = inr resp ->
  decode (Body resp) = (r, None) ->
  exists st, searchOutcome env decode field c line = Returns (Some (field r), None) st.
Proof.
  intros Hp Hd He. unfold searchOutcome. cbv zeta. rewrite Hp, Hd, He.
  eexists. reflexivity.
Qed.

Lemma searchOutcome_refused {T R : Type}
    (decode : string -> T * option error) (field : T -> R)
    (c : WS2Client) (line : string) (err : error) :
  url_Parse_err env line = Some err ->
  searchOutcome env decode field c line
  = Exits (mkState c [CallNewRequest "GET" line; CallFatalln err])
  /\ sent (searchOutcome env decode field c line) = [].
Proof.
  intros Hp. unfold searchOutcome. cbv zeta. rewrite Hp. split; reflexivity.
Qed.

Context {Artist Release ReleaseGroup Tag : Type}.
Context {decArtist : Unmarshal (artistResult Artist)}.
Context {decRelease : Unmarshal (releaseResult Release)}.
Context {decReleaseGroup : Unmarshal (releaseGroupResult ReleaseGroup)}.
Context {decTag : Unmarshal (tagResult Tag)}.


(** With a root, each of the four ends in one of three ways, with the log
    that goes with it. *)
Lemma summaries_root (c : WS2Client) (u : url.URL) (term : string) (limit offset : Z) :
  WS2RootURL c = Some u ->
  Forall (fun s =>
            (exists line err,
                s = (Exited, [CallNewRequest "GET" line; CallFatalln err]))
            \/ (exists line req err,
                   s = (Exited, [CallNewRequest "GET" line; CallDo req; CallFatalln err]))
            \/ (exists line req body,
                   s = (Returned,
                        [ CallNewRequest "GET" line; CallDo req;
                          CallDecode body; CallClose ])))
    (summaries env term limit offset c).
Proof.
  intros Hroot. unfold summaries.
  rewrite (SearchArtist_run env c u), (SearchRelease_run env c u),
    (SearchReleaseGroup_run env c u), (SearchTag_run env c u) by exact Hroot.
  rewrite !summary_searchOutcome.
  repeat (apply Forall_cons;
    [ destruct (url_Parse_err env _); [left; eauto|];
      destruct (client_Do env _); [right; left; eauto | right; right; eauto] |]).
  apply Forall_nil.
Qed.

End Endings.

Lemma configure_root (infos : list (string * string * string)) :
  forall c, WS2RootURL (configure infos c) = WS2RootURL c.
Proof.
  unfold configure. induction infos as [|[[a v] k] infos IH]; intros c.
  - reflexivity.
  - cbn [fold_left]. rewrite IH. reflexivity.
Qed.

Lemma configure_last (infos : list (string * string * string))
    (application version contact : string) (c : WS2Client) :
  userAgentHeader (configure (infos ++ [(application, version, contact)]) c)
  = (application ++ "/" ++ version ++ " ( " ++ contact ++ " ) ")%string.
Proof.
  unfold configure. rewrite fold_left_app. reflexivity.
Qed.

(** ** Further properties of the client *)

(** X1: [intParamToString] keeps integers apart: two different values of a
    limit or an offset never give the same parameter string, so -1 is the
    only value that gives the empty string and no number is sent as another
    one. *)
Theorem intParamToString_distinct (i j : Z) :
  i <> j -> intParamToString i <> intParamToString j.
Proof.
  intros Hij H. apply Hij. revert H. unfold intParamToString.
  destruct (i =? -1) eqn:Ei, (j =? -1) eqn:Ej; intros H.
  - apply Z.eqb_eq in Ei, Ej. lia.
  - symmetry in H. destruct (strconv_facts.Itoa_nonempty j H).
  - destruct (strconv_facts.Itoa_nonempty i H).
  - apply (f_equal strconv.Atoi) in H.
    rewrite !strconv_facts.Atoi_Itoa in H. injection H as H. exact H.
Qed.

(** X2: whatever the search term, the limit and the offset, the parameters a
    search encodes form three [key=value] pairs joined by two [&]: the
    encoded string holds exactly two [&] and three [=], and no [?], [#] or
    space, so a term cannot add a parameter or end the query. *)
Theorem search_query_has_three_parameters (term : string) (limit offset : Z) :
  countChar "&" (url.Encode (searchParams term limit offset)) = 2%nat
  /\ countChar "=" (url.Encode (searchParams term limit offset)) = 3%nat
  /\ countChar "?" (url.Encode (searchParams term limit offset)) = O
  /\ countChar "#" (url.Encode (searchParams term limit offset)) = O
  /\ countChar " " (url.Encode (searchParams term limit offset)) = O.
Proof.
  rewrite Encode_search.
  repeat split; rewrite !countChar_app;
    rewrite !QueryEscape_no_delimiter by (cbn [In]; tauto); reflexivity.
Qed.

(** X3: what [QueryEscape] writes for a parameter value, [QueryUnescape]
    reads back as that value, for every string: escaping loses nothing and
    never produces an invalid escape. *)
Theorem QueryEscape_read_back (s : string) :
  QueryUnescape (url.QueryEscape s) = Some s.
Proof.
  induction s as [|c s IH]; [reflexivity|].
  rewrite QueryUnescape_step, IH. reflexivity.
Qed.

(** X4: the encoded parameters of a search determine its arguments: two
    searches that differ in the term, the limit or the offset never encode to
    the same query string. *)
Theorem search_query_determines_arguments
    (term term' : string) (limit limit' offset offset' : Z) :
  (term, limit, offset) <> (term', limit', offset') ->
  url.Encode (searchParams term limit offset)
  <> url.Encode (searchParams term' limit' offset').
Proof.
  intros Hne H. apply Hne.
  apply Encode_search_inj in H as (Ht & Hl & Ho).
  apply intParamToString_inj in Hl, Ho. subst. reflexivity.
Qed.

Section MoreClaims.

Variable env : Env.
Context {Artist Release ReleaseGroup Tag : Type}.
Context {decArtist : Unmarshal (artistResult Artist)}.
Context {decRelease : Unmarshal (releaseResult Release)}.
Context {decReleaseGroup : Unmarshal (releaseGroupResult ReleaseGroup)}.
Context {decTag : Unmarshal (tagResult Tag)}.

(** X5: a client made by [NewWS2Client] and then given client information
    any number of times keeps the root [NewWS2Client] set, and no search on it
    panics: each one returns or ends in [log.Fatalln]. *)
Theorem configured_client_never_panics
    (infos : list (string * string * string)) (term : string) (limit offset : Z) :
  WS2RootURL (configure infos NewWS2Client)
  = Some (url.mkURL "https" "musicbrainz.org" "/ws/2" "" "")
  /\ Forall (fun s => fst s <> Panicked)
       (summaries env term limit offset (configure infos NewWS2Client)).
Proof.
  assert (Hroot : WS2RootURL (configure infos NewWS2Client)
                  = Some (url.mkURL "https" "musicbrainz.org" "/ws/2" "" ""))
    by (rewrite configure_root; reflexivity).
  split; [exact Hroot|].
  eapply Forall_impl; [|exact (summaries_root env _ _ term limit offset Hroot)].
  intros s [(line & err & ->)|[(line & req & err & ->)|(line & req & body & ->)]];
    discriminate.
Qed.


Ltac refused_exits run_lemma :=
  let Hroot := fresh "Hroot" in
  let Hp := fresh "Hp" in
  intros ? ? ? ? ? ? Hroot Hp;
  rewrite (run_lemma env _ _ _ _ _ _ _ Hroot);
  exact (searchOutcome_refused env _ _ _ _ _ Hp).

(** X7: for each search operation, a request line that [http.NewRequest]
    refuses ends the process in [log.Fatalln] with that error, after the one
    call to [http.NewRequest]: nothing is sent and nothing is returned. *)
Theorem refused_request_line_exits_unsent :
  RefusedLineExits env "/artist" (SearchArtist (Artist:=Artist) env)
  /\ RefusedLineExits env "/release" (SearchRelease (Release:=Release) env)
  /\ RefusedLineExits env "/release-group"
       (SearchReleaseGroup (ReleaseGroup:=ReleaseGroup) env)
  /\ RefusedLineExits env "/tag" (SearchTag (Tag:=Tag) env).
Proof.
  split; [|split; [|split]].
  - refused_exits SearchArtist_run.
  - refused_exits SearchRelease_run.
  - refused_exits SearchReleaseGroup_run.
  - refused_exits SearchTag_run.
Qed.


Ltac decoded_returned run_lemma :=
  let Hroot := fresh "Hroot" in
  let Hp := fresh "Hp" in
  let Hd := fresh "Hd" in
  let He := fresh "He" in
  intros ? ? ? ? ? ? ? Hroot Hp Hd He;
  rewrite (run_lemma env _ _ _ _ _ _ _ Hroot);
  exact (searchOutcome_decoded env _ _ _ _ _ _ Hp Hd He).

(** X9: for each search operation, when the body decodes without error the
    operation returns a nil error and the envelope the decoder filled in,
    whole: the count, the offset and the list of entities are the decoded
    ones. *)
Theorem decoded_envelope_returned :
  DecodedReturned env (mkArtistResult (Artist:=Artist) zeroResponse)
    "/artist" Resonse (SearchArtist env)
  /\ DecodedReturned env (mkReleaseResult (Release:=Release) zeroResponse)
       "/release" Response (SearchRelease env)
  /\ DecodedReturned env
       (mkReleaseGroupResult (ReleaseGroup:=ReleaseGroup) zeroResponse)
       "/release-group" ReleaseGroup_Response (SearchReleaseGroup env)
  /\ DecodedReturned env (mkTagResult (Tag:=Tag) zeroResponse)
       "/tag" Tag_Response (SearchTag env).
Proof.
  split; [|split; [|split]].
  - decoded_returned SearchArtist_run.
  - decoded_returned SearchRelease_run.
  - decoded_returned SearchReleaseGroup_run.
  - decoded_returned SearchTag_run.
Qed.

(** X10: after any sequence of [SetClientInfo] calls, the request of every
    search goes to the root the client had before them and carries one
    header, [User-Agent], made from the last call: application, slash,
    version, and the contact between [" ( "] and [" ) "]. *)
Theorem client_info_sent_as_user_agent
    (infos : list (string * string * string))
    (application version contact : string)
    (c : WS2Client) (u : url.URL) (term : string) (limit offset : Z) :
  WS2RootURL c = Some u ->
  wire env term limit offset
    (configure (infos ++ [(application, version, contact)]) c)
  = map (fun endpoint =>
           match url_Parse_err env
                   (lineTo u endpoint (searchParams term limit offset)) with
           | Some _ => []
           | None =>
               [ mkRequest "GET"
                   (lineTo u endpoint (searchParams term limit offset))
                   [("User-Agent",
                     [(application ++ "/" ++ version ++ " ( " ++ contact ++ " ) ")%string])] ]
           end)
      ["/artist"; "/release"; "/release-group"; "/tag"].
Proof.
  intros Hroot.
  rewrite (wire_eq env _ u) by (rewrite configure_root; exact Hroot).
  rewrite configure_last. reflexivity.
Qed.

End MoreClaims.

Section TermForwarding.

Variable env : Env.
Context {Artist Release ReleaseGroup Tag : Type}.
Context {decArtist : Unmarshal (artistResult Artist)}.
Context {decRelease : Unmarshal (releaseResult Release)}.
Context {decReleaseGroup : Unmarshal (releaseGroupResult ReleaseGroup)}.
Context {decTag : Unmarshal (tagResult Tag)}.

(** X11: an empty search term is not refused by the client: each of the four
    operations builds its request line all the same, with [query=] and
    nothing after it at the end. *)
Theorem empty_term_is_forwarded
    (c : WS2Client) (u : url.URL) (limit offset : Z) :
  WS2RootURL c = Some u ->
  requestLines env "" limit offset c
  = map (fun endpoint =>
           Some (url.String_ u ++ endpoint ++ "?limit="
                 ++ url.QueryEscape (intParamToString limit)
                 ++ "&offset=" ++ url.QueryEscape (intParamToString offset)
                 ++ "&query=")%string)
      ["/artist"; "/release"; "/release-group"; "/tag"].
Proof.
  intros Hroot. rewrite (requestLines_eq env c u) by exact Hroot.
  rewrite Encode_search. unfold endpoints. cbn [map url.QueryEscape].
  rewrite !append_empty_r. cbn [append]. reflexivity.
Qed.

(** X12: a search term made only of letters, digits and the marks [-], [_],
    [.], [~] reaches the request line of each operation unchanged, as the
    value of [query]. *)
Theorem unreserved_term_sent_verbatim
    (c : WS2Client) (u : url.URL) (term : string) (limit offset : Z) :
  WS2RootURL c = Some u ->
  url.unreserved term = true ->
  requestLines env term limit offset c
  = map (fun endpoint =>
           Some (url.String_ u ++ endpoint ++ "?limit="
                 ++ url.QueryEscape (intParamToString limit)
                 ++ "&offset=" ++ url.QueryEscape (intParamToString offset)
                 ++ "&query=" ++ term)%string)
      ["/artist"; "/release"; "/release-group"; "/tag"].
Proof.
  intros Hroot Hterm. rewrite (requestLines_eq env c u) by exact Hroot.
  rewrite Encode_search, (QueryEscape_unreserved term Hterm).
  unfold endpoints. cbn [map]. cbn [append]. reflexivity.
Qed.

End TermForwarding.

(** ** The further properties on sample services *)

Lemma intParamToString_distinct_witness :
  -1 <> 1 /\ intParamToString (-1) <> intParamToString 1.
Proof.
  split; [lia|]. exact (intParamToString_distinct (-1) 1 ltac:(lia)).
Defined.

Lemma search_query_determines_arguments_witness :
  ("Beatles", 1, 0) <> ("Beatles", 2, 0)
  /\ url.Encode (searchParams "Beatles" 1 0)
     <> url.Encode (searchParams "Beatles" 2 0).
Proof.
  split; [discriminate|].
  exact (search_query_determines_arguments "Beatles" "Beatles" 1 2 0 0
           ltac:(discriminate)).
Defined.


Lemma refused_request_line_exits_unsent_witness :
  WS2RootURL oddClient = Some (url.mkURL "1http" "musicbrainz.org" "/ws/2" "" "")
  /\ url_Parse_err refusingEnv "1http://musicbrainz.org/ws/2/tag?limit=&offset=&query=rock"
     = Some "first path segment in URL cannot contain colon"
  /\ run (SearchTag (Tag:=string) refusingEnv "rock" (-1) (-1)) oddClient
     = Exits (mkState oddClient
         [ CallNewRequest "GET"
             "1http://musicbrainz.org/ws/2/tag?limit=&offset=&query=rock";
           CallFatalln "first path segment in URL cannot contain colon" ]).
Proof.
  split; [reflexivity|]. split; [reflexivity|].
  exact (proj1 (proj2 (proj2 (proj2 (refused_request_line_exits_unsent refusingEnv)))
                  oddClient (url.mkURL "1http" "musicbrainz.org" "/ws/2" "" "")
                  "rock" (-1) (-1) "first path segment in URL cannot contain colon"
                  eq_refl eq_refl)).
Defined.

Lemma decoded_envelope_returned_witness :
  client_Do sampleEnv
    (mkRequest "GET" "https://musicbrainz.org/ws/2/tag?limit=2&offset=0&query=Beatles"
       [("User-Agent", [userAgentHeader NewWS2Client])])
  = inr (mkHTTPResponse twoNames)
  /\ xml_Decode twoNames (mkTagResult (Tag:=string) zeroResponse)
     = (mkTagResult (mkListResponse 2 0 ["The Beatles"; "The Tape-beatles"]), None)
  /\ exists st,
       run (SearchTag sampleEnv "Beatles" 2 0) NewWS2Client
       = Returns (Some (mkListResponse 2 0 ["The Beatles"; "The Tape-beatles"]), None) st.
Proof.
  split; [reflexivity|]. split; [reflexivity|].
  exact (proj2 (proj2 (proj2 (decoded_envelope_returned sampleEnv)))
           NewWS2Client (url.mkURL "https" "musicbrainz.org" "/ws/2" "" "")
           "Beatles" 2 0 (mkHTTPResponse twoNames)
           (mkTagResult (mkListResponse 2 0 ["The Beatles"; "The Tape-beatles"]))
           eq_refl eq_refl eq_refl eq_refl).
Defined.

Lemma client_info_sent_as_user_agent_witness :
  WS2RootURL NewWS2Client = Some (url.mkURL "https" "musicbrainz.org" "/ws/2" "" "")
  /\ map (map ReqHeader)
       (wire sampleEnv "Beatles" (-1) (-1)
          (configure [("Draft", "0.1", "nobody"); ("App", "1.0", "a@b.com")] NewWS2Client))
     = [ [[("User-Agent", ["App/1.0 ( a@b.com ) "])]];
         [[("User-Agent", ["App/1.0 ( a@b.com ) "])]];
         [[("User-Agent", ["App/1.0 ( a@b.com ) "])]];
         [[("User-Agent", ["App/1.0 ( a@b.com ) "])]] ].
Proof.
  split; [reflexivity|].
  exact (f_equal (map (map ReqHeader))
    (client_info_sent_as_user_agent sampleEnv [("Draft", "0.1", "nobody")]
       "App" "1.0" "a@b.com" NewWS2Client _ "Beatles" (-1) (-1) eq_refl)).
Defined.

Lemma empty_term_is_forwarded_witness :
  WS2RootURL NewWS2Client = Some (url.mkURL "https" "musicbrainz.org" "/ws/2" "" "")
  /\ requestLines sampleEnv "" 5 (-1) NewWS2Client
     = [ Some "https://musicbrainz.org/ws/2/artist?limit=5&offset=&query=";
         Some "https://musicbrainz.org/ws/2/release?limit=5&offset=&query=";
         Some "https://musicbrainz.org/ws/2/release-group?limit=5&offset=&query=";
         Some "https://musicbrainz.org/ws/2/tag?limit=5&offset=&query=" ].
Proof.
  split; [reflexivity|].
  exact (empty_term_is_forwarded sampleEnv NewWS2Client _ 5 (-1) eq_refl).
Defined.

Lemma unreserved_term_sent_verbatim_witness :
  WS2RootURL NewWS2Client = Some (url.mkURL "https" "musicbrainz.org" "/ws/2" "" "")
  /\ url.unreserved "Tape-beatles_2.0~" = true
  /\ requestLines sampleEnv "Tape-beatles_2.0~" (-1) (-1) NewWS2Client
     = [ Some "https://musicbrainz.org/ws/2/artist?limit=&offset=&query=Tape-beatles_2.0~";
         Some "https://musicbrainz.org/ws/2/release?limit=&offset=&query=Tape-beatles_2.0~";
         Some "https://musicbrainz.org/ws/2/release-group?limit=&offset=&query=Tape-beatles_2.0~";
         Some "https://musicbrainz.org/ws/2/tag?limit=&offset=&query=Tape-beatles_2.0~" ].
Proof.
  split; [reflexivity|]. split; [reflexivity|].
  exact (unreserved_term_sent_verbatim sampleEnv NewWS2Client _ "Tape-beatles_2.0~"
           (-1) (-1) eq_refl eq_refl).
Defined.
